(** * drag-and-drop: the data model of [src/types.ts]

    The repository's source is the type-declaration module [types.ts] of a
    drag-and-drop engine.  This development has two layers.

    - Module [TS] transcribes the declarations themselves (interfaces, their
      members, optionality markers and member types), so that statements
      about which members a record has, and with which type, are statements
      about the declarations.
    - Module [Engine] gives the run-time reading of those declarations as
      records, and the behaviour of the resolvers and of registration, which
      operate on them.

    Module [Spec] holds the specification's own lists, which the
    declarations are compared with, and module [Sample] concrete parents
    and sessions. *)

From Stdlib Require Import QArith.
From stdpp Require Import base option list strings gmap.

(** ** The declarations of [types.ts] *)

Module TS.

(** Type expressions, as far as [types.ts] uses them. *)
#[local] Set Warnings "-register-all".
Inductive ty : Type :=
| TAny
| TBoolean
| TNumber
| TString
| TUndefined
| TVoid
| TLit (s : string)                       (* a string literal type *)
| TRef (n : string)                       (* a named type *)
| TApp (n : string) (args : list ty)      (* [Array<T>], [Record<K, V>], ... *)
| TTypeof (n : string)                    (* [typeof n] *)
| TUnion (ts : list ty)                   (* [A | B | ...] *)
| TFun (params : list (string * ty)) (ret : ty)
| TObj (ms : list member)                 (* an inline object type *)
with member : Type :=
| Member (name : string) (optional : bool) (type : ty).

#[local] Set Warnings "register-all".

Definition m_name (m : member) : string :=
  match m with Member n _ _ => n end.
Definition m_optional (m : member) : bool :=
  match m with Member _ o _ => o end.
Definition m_type (m : member) : ty :=
  match m with Member _ _ t => t end.

(** [n :! t] is the member [n: t], [n :? t] the member [n?: t]. *)
Notation "n ':!' t" := (Member n false t) (at level 60, no associativity).
Notation "n ':?' t" := (Member n true t) (at level 60, no associativity).

Definition TArray (t : ty) : ty := TApp "Array" [t].
Definition TRecord (k v : ty) : ty := TApp "Record" [k; v].
Definition TPartial (t : ty) : ty := TApp "Partial" [t].
Definition TWeakMap (k v : ty) : ty := TApp "WeakMap" [k; v].

(** A top-level declaration: an interface with its [extends] clause, its
    index signature if it has one, and its members in source order; or a
    type alias. *)
Inductive decl : Type :=
| Interface (name : string) (extends : list string)
            (index_sig : option (ty * ty)) (members : list member)
| Alias (name : string) (rhs : ty).

Definition d_name (d : decl) : string :=
  match d with Interface n _ _ _ => n | Alias n _ => n end.

(** *** The interfaces, in source order *)

Definition DragAndDrop : decl :=
  Interface "DragAndDrop" [] None
    [ "parent" :! TRef "HTMLElement";
      "getValues" :! TFun [("parent", TRef "HTMLElement")] (TArray TAny);
      "setValues" :! TFun [("values", TArray TAny); ("parent", TRef "HTMLElement")] TVoid;
      "config" :? TPartial (TRef "ParentConfig") ].

Definition ParentConfig : decl :=
  Interface "ParentConfig" [] (Some (TString, TAny))
    [ "accepts" :? TFun [ ("targetParentData", TRef "ParentRecord");
                          ("initialParentData", TRef "ParentRecord");
                          ("lastParentData", TRef "ParentRecord");
                          ("state", TUnion [TRef "DragState"; TRef "TouchState"]) ]
                        TBoolean;
      "disabled" :? TBoolean;
      "dragHandle" :? TString;
      "draggable" :? TFun [("child", TRef "HTMLElement")] TBoolean;
      "draggingClass" :? TString;
      "dropZoneClass" :? TString;
      "dropZone" :? TBoolean;
      "group" :? TString;
      "handleEnd" :! TFun [("data", TUnion [TRef "NodeDragEventData"; TRef "NodeTouchEventData"])] TVoid;
      "handleDragstart" :! TFun [("data", TRef "NodeDragEventData")] TVoid;
      "handleTouchstart" :! TFun [("data", TRef "NodeTouchEventData")] TVoid;
      "handleDragoverParent" :! TFun [("data", TRef "ParentDragEventData")] TVoid;
      "handleDragoverNode" :! TFun [("data", TRef "NodeDragEventData")] TVoid;
      "handleTouchmove" :! TFun [("data", TRef "NodeTouchEventData")] TVoid;
      "handleTouchOverNode" :! TFun [("data", TRef "TouchOverNodeEvent")] TVoid;
      "handleTouchOverParent" :! TFun [("e", TRef "TouchOverParentEvent")] TVoid;
      "longTouch" :? TBoolean;
      "longTouchClass" :? TString;
      "longTouchTimeout" :? TNumber;
      "name" :? TString;
      "performSort" :! TFun [ ("state", TUnion [TRef "DragState"; TRef "TouchState"]);
                              ("data", TUnion [TRef "NodeDragEventData"; TRef "NodeTouchEventData"]) ]
                            TVoid;
      "performTransfer" :! TFun [ ("state", TUnion [TRef "DragState"; TRef "TouchState"]);
                                  ("data", TUnion [TRef "NodeEventData"; TRef "ParentEventData"]) ]
                                TVoid;
      "plugins" :? TArray (TRef "DNDPlugin");
      "root" :! TUnion [TRef "Document"; TRef "ShadowRoot"];
      "setupNode" :! TRef "SetupNode";
      "sortable" :? TBoolean;
      "tearDownNode" :! TRef "TearDownNode";
      "threshold" :! TObj [ "horizontal" :! TNumber; "vertical" :! TNumber ];
      "touchDraggingClass" :? TString;
      "touchDropZoneClass" :? TString ].

Definition ParentData : decl :=
  Interface "ParentData" [] None
    [ "getValues" :! TFun [("parent", TRef "HTMLElement")] (TArray TAny);
      "setValues" :! TFun [("values", TArray TAny); ("parent", TRef "HTMLElement")] TVoid;
      "config" :! TRef "ParentConfig";
      "enabledNodes" :! TArray (TRef "NodeRecord");
      "abortControllers" :! TRecord TString (TRef "AbortController") ].

Definition NodeData : decl :=
  Interface "NodeData" [] None
    [ "index" :! TNumber;
      "value" :! TAny;
      "privateClasses" :! TArray TString;
      "abortControllers" :! TRecord TString (TRef "AbortController") ].

Definition NodeEventData : decl :=
  Interface "NodeEventData" [] None
    [ "e" :! TRef "Event";
      "targetData" :! TRef "NodeTargetData" ].

Definition NodeDragEventData : decl :=
  Interface "NodeDragEventData" ["NodeEventData"] None
    [ "e" :! TRef "DragEvent" ].

Definition ParentDragEventData : decl :=
  Interface "ParentDragEventData" ["ParentEventData"] None
    [ "e" :! TRef "DragEvent" ].

Definition NodeTouchEventData : decl :=
  Interface "NodeTouchEventData" ["NodeEventData"] None
    [ "e" :! TRef "TouchEvent";
      "targetData" :! TRef "NodeTargetData" ].

Definition ParentEventData : decl :=
  Interface "ParentEventData" [] None
    [ "e" :! TRef "Event";
      "targetData" :! TRef "ParentTargetData" ].

Definition ParentTargetData : decl :=
  Interface "ParentTargetData" [] None
    [ "parent" :! TRef "ParentRecord" ].

Definition NodeTargetData : decl :=
  Interface "NodeTargetData" [] None
    [ "node" :! TRef "NodeRecord";
      "parent" :! TRef "ParentRecord" ].

Definition NodeRecord : decl :=
  Interface "NodeRecord" [] None
    [ "el" :! TRef "Node";
      "data" :! TRef "NodeData" ].

Definition ParentRecord : decl :=
  Interface "ParentRecord" [] None
    [ "el" :! TRef "HTMLElement";
      "data" :! TRef "ParentData" ].

Definition NodeFromPoint : decl :=
  Interface "NodeFromPoint" [] None
    [ "node" :! TRef "NodeRecord";
      "parent" :! TRef "ParentRecord" ].

Definition ParentFromPoint : decl :=
  Interface "ParentFromPoint" [] None
    [ "parent" :! TRef "ParentRecord" ].

Definition NodeEvent : decl :=
  Alias "NodeEvent" (TFun [("data", TRef "NodeEventData")] TVoid).

Definition Node : decl :=
  Interface "Node" ["HTMLElement"] None
    [ "parentNode" :! TRef "HTMLElement" ].

Definition TouchOverNodeEvent : decl :=
  Interface "TouchOverNodeEvent" ["Event"] None
    [ "detail" :! TObj [ "e" :! TRef "TouchEvent";
                         "targetData" :! TRef "NodeTargetData" ] ].

Definition TouchOverParentEvent : decl :=
  Interface "TouchOverParentEvent" ["Event"] None
    [ "detail" :! TObj [ "e" :! TRef "TouchEvent";
                         "targetData" :! TRef "ParentTargetData" ] ].

Definition NodesData : decl :=
  Alias "NodesData" (TWeakMap (TRef "Node") (TRef "NodeData")).

Definition ParentsData : decl :=
  Alias "ParentsData" (TWeakMap (TRef "HTMLElement") (TRef "ParentData")).

Definition ParentObservers : decl :=
  Alias "ParentObservers" (TWeakMap (TRef "HTMLElement") (TRef "MutationObserver")).

Definition DNDPluginData : decl :=
  Interface "DNDPluginData" [] None
    [ "setup" :? TFun [] TVoid;
      "tearDown" :? TFun [] TVoid;
      "setupNode" :? TRef "SetupNode";
      "tearDownNode" :? TRef "TearDownNode" ].

Definition PluginData : decl :=
  Interface "PluginData" [] None
    [ "parent" :! TRef "HTMLElement" ].

Definition DNDPlugin : decl :=
  Alias "DNDPlugin"
    (TFun [("parent", TRef "HTMLElement")] (TUnion [TRef "DNDPluginData"; TUndefined])).

Definition DragAndDropData : decl :=
  Interface "DragAndDropData" [] None
    [ "parent" :! TRef "HTMLElement";
      "values" :! TArray TAny ].

Definition SetupNode : decl :=
  Alias "SetupNode" (TFun [("data", TRef "SetupNodeData")] TVoid).

Definition TearDownNode : decl :=
  Alias "TearDownNode" (TFun [("data", TRef "TearDownNodeData")] TVoid).

Definition SetupNodeData : decl :=
  Interface "SetupNodeData" [] None
    [ "node" :! TRef "Node";
      "nodeData" :! TRef "NodeData";
      "parent" :! TRef "HTMLElement";
      "parentData" :! TRef "ParentData" ].

Definition TearDownNodeData : decl :=
  Interface "TearDownNodeData" [] None
    [ "node" :! TRef "Node";
      "nodeData" :? TRef "NodeData";
      "parent" :! TRef "HTMLElement";
      "parentData" :! TRef "ParentData" ].

Definition EventHandlers : decl :=
  Alias "EventHandlers" (TRecord TString (TFun [("e", TRef "Event")] TVoid)).

Definition TouchState : decl :=
  Interface "TouchState" ["DragState"] None
    [ "touchMoving" :! TBoolean;
      "touchStartLeft" :! TNumber;
      "touchStartTop" :! TNumber;
      "touchedNode" :! TRef "HTMLElement";
      "longTouchTimeout" :! TUnion [TApp "ReturnType" [TTypeof "setTimeout"]; TUndefined];
      "scrollParent" :! TUnion [TRef "HTMLElement"; TUndefined];
      "scrollParentOverflow" :! TUnion [TString; TUndefined];
      "longTouch" :! TBoolean;
      "touchedNodeDisplay" :! TUnion [TString; TUndefined] ].

Definition DragState : decl :=
  Interface "DragState" ["DragStateProps"] None
    [ "activeNode" :! TUnion [TRef "NodeRecord"; TUndefined];
      "affectedNodes" :! TArray (TRef "NodeRecord");
      "ascendingDirection" :! TBoolean;
      "clonedDraggedEls" :! TArray (TRef "Element");
      "draggedNode" :! TRef "NodeRecord";
      "draggedNodes" :! TArray (TRef "NodeRecord");
      "incomingDirection" :! TUnion [TLit "above"; TLit "below"; TLit "left"; TLit "right"; TUndefined];
      "initialParent" :! TRef "ParentRecord";
      "lastParent" :! TRef "ParentRecord";
      "lastValue" :! TAny;
      "originalZIndex" :! TUnion [TString; TUndefined];
      "preventEnter" :! TBoolean;
      "swappedNodeValue" :! TUnion [TAny; TUndefined];
      "targetIndex" :! TNumber ].

Definition DragStateProps : decl :=
  Interface "DragStateProps" [] None
    [ "draggedNode" :! TRef "NodeRecord";
      "draggedNodes" :! TArray (TRef "NodeRecord");
      "initialParent" :! TRef "ParentRecord";
      "lastParent" :! TRef "ParentRecord" ].

Definition TouchStateProps : decl :=
  Interface "TouchStateProps" [] None
    [ "touchedNode" :! TRef "HTMLElement";
      "touchStartLeft" :! TNumber;
      "touchStartTop" :! TNumber ].

(** The module, as the list of its declarations. *)
Definition types_ts : list decl :=
  [ DragAndDrop; ParentConfig; ParentData; NodeData; NodeEventData;
    NodeDragEventData; ParentDragEventData; NodeTouchEventData;
    ParentEventData; ParentTargetData; NodeTargetData; NodeRecord;
    ParentRecord; NodeFromPoint; ParentFromPoint; NodeEvent; Node;
    TouchOverNodeEvent; TouchOverParentEvent; NodesData; ParentsData;
    ParentObservers; DNDPluginData; PluginData; DNDPlugin; DragAndDropData;
    SetupNode; TearDownNode; SetupNodeData; TearDownNodeData; EventHandlers;
    TouchState; DragState; DragStateProps; TouchStateProps ].

(** *** Reading the declarations *)

Definition find_decl (n : string) : option decl :=
  List.find (fun d => String.eqb (d_name d) n) types_ts.

Definition own_members (d : decl) : list member :=
  match d with Interface _ _ _ ms => ms | Alias _ _ => [] end.

Definition bases (d : decl) : list string :=
  match d with Interface _ bs _ _ => bs | Alias _ _ => [] end.

Definition index_signature (d : decl) : option (ty * ty) :=
  match d with Interface _ _ ix _ => ix | Alias _ _ => None end.

Definition names (ms : list member) : list string := map m_name ms.

Definition has_name (n : string) (m : member) : bool := String.eqb (m_name m) n.

Definition declares (ms : list member) (n : string) : bool :=
  existsb (has_name n) ms.

(** The members of an interface: its own, then those it inherits and does
    not declare again.  A base that [types.ts] does not declare itself (a
    DOM type such as [HTMLElement] or [Event]) contributes none here: for
    [Node] and the two touch-over events, which extend such a base, these
    are the members the module writes, not all they have.  The
    [extends] chains of the module are at most two long; [depth] bounds the
    walk. *)
Fixpoint members_upto (depth : nat) (d : decl) : list member :=
  let own := own_members d in
  match depth with
  | O => own
  | S k =>
      let inherited :=
        flat_map (fun b => match find_decl b with
                           | Some bd => members_upto k bd
                           | None => []
                           end) (bases d) in
      own ++ List.filter (fun m => negb (declares own (m_name m))) inherited
  end.

Definition members (d : decl) : list member :=
  members_upto (length types_ts) d.

Definition lookup_member (d : decl) (n : string) : option member :=
  List.find (has_name n) (members d).

(** One step of alias resolution: a reference to an alias of the module
    stands for the alias's right-hand side. *)
Definition resolve (t : ty) : ty :=
  match t with
  | TRef n => match find_decl n with
              | Some (Alias _ rhs) => rhs
              | _ => t
              end
  | _ => t
  end.

End TS.

(** ** Literal values and finite types *)

Module Lit.
Import TS.

(** The values a finite type of the module can hold. *)
Inductive literal : Type :=
| LUndefined
| LString (s : string)
| LBool (b : bool).

#[global] Instance literal_eq_dec : EqDecision literal.
Proof. solve_decision. Defined.

(** The values of a type, when the type is finite: [undefined], a string
    literal type, [boolean], and unions of finite types.  Every other type
    ([string], [number], a reference, ...) has no finite enumeration here. *)
Fixpoint enum_values (t : ty) : option (list literal) :=
  match t with
  | TUndefined => Some [LUndefined]
  | TLit s => Some [LString s]
  | TBoolean => Some [LBool true; LBool false]
  | TUnion ts =>
      (fix go (l : list ty) : option (list literal) :=
         match l with
         | [] => Some []
         | t' :: l' =>
             match enum_values t', go l' with
             | Some vs, Some ws => Some (vs ++ ws)
             | _, _ => None
             end
         end) ts
  | _ => None
  end.

(** An object that carries exactly the keys [ks] meets the presence
    requirements of interface [d] when every member declared without [?] is
    among [ks]. *)
Definition provides_required (d : decl) (ks : list string) : bool :=
  forallb (fun m => m_optional m || existsb (String.eqb (m_name m)) ks)
          (members d).

Definition is_boolean (t : ty) : bool :=
  match t with TBoolean => true | _ => false end.

Definition is_function (t : ty) : bool :=
  match resolve t with TFun _ _ => true | _ => false end.

(** The members declared with type [boolean]: the configuration's flags. *)
Definition flags (d : decl) : list string :=
  names (List.filter (fun m => is_boolean (m_type m)) (members d)).

(** The members that are declared without [?] and hold a function. *)
Definition required_hooks (d : decl) : list string :=
  names (List.filter (fun m => negb (m_optional m) && is_function (m_type m))
                     (members d)).

End Lit.

(** ** The specification's vocabulary

    The lists below follow the specification's wording; they are what the
    declarations of [types.ts] are compared with. *)

Module Spec.
Import TS.

(** The five directions of the specification's session description. *)
Inductive IncomingDirection : Type := above | below | left | right | none.

Definition all_directions : list IncomingDirection :=
  [above; below; left; right; none].

(** How each direction is written in [types.ts]: the four named directions
    are string literals, and "no direction yet" is [undefined]. *)
Definition represent (d : IncomingDirection) : Lit.literal :=
  match d with
  | above => Lit.LString "above"
  | below => Lit.LString "below"
  | left => Lit.LString "left"
  | right => Lit.LString "right"
  | none => Lit.LUndefined
  end.

(** The kinds of option the specification's interface section names. *)
Inductive kind : Type :=
| KBool          (* "(bool)" *)
| KString        (* "(string)", "(selector)" *)
| KMillis        (* "timeout (ms)" *)
| KPredicate     (* "(predicate)" *)
| KCallback      (* "overridable strategies", "overridable lifecycle hooks" *)
| KList          (* "(ordered list)" *)
| KFractions     (* "{horizontal, vertical} (fractions ...)" *)
| KScope.        (* "(scope for element lookups)" *)

(** The configuration options of the specification's interface section, in
    its order, under the member names [types.ts] gives them. *)
Definition config_options : list (string * kind) :=
  [ ("disabled", KBool);
    ("dragHandle", KString);
    ("draggable", KPredicate);
    ("draggingClass", KString);
    ("dropZoneClass", KString);
    ("touchDraggingClass", KString);
    ("touchDropZoneClass", KString);
    ("dropZone", KBool);
    ("group", KString);
    ("longTouch", KBool);
    ("longTouchClass", KString);
    ("longTouchTimeout", KMillis);
    ("name", KString);
    ("sortable", KBool);
    ("threshold", KFractions);
    ("plugins", KList);
    ("accepts", KPredicate);
    ("performSort", KCallback);
    ("performTransfer", KCallback);
    ("setupNode", KCallback);
    ("tearDownNode", KCallback);
    ("root", KScope) ].

(** Whether a declared type is of the kind the specification states. *)
Definition has_kind (t : ty) (k : kind) : bool :=
  match k, resolve t with
  | KBool, TBoolean => true
  | KString, TString => true
  | KMillis, TNumber => true
  | KPredicate, TFun _ TBoolean => true
  | KCallback, TFun _ TVoid => true
  | KList, TApp "Array" [_] => true
  | KFractions, TObj [Member "horizontal" false TNumber; Member "vertical" false TNumber] => true
  | KScope, TUnion [TRef "Document"; TRef "ShadowRoot"] => true
  | _, _ => false
  end.

Definition option_declared (d : decl) (o : string * kind) : bool :=
  match lookup_member d (fst o) with
  | Some m => has_kind (m_type m) (snd o)
  | None => false
  end.

(** The members of [ParentConfig] that the list of options above does not
    have. *)
Definition unlisted_options : list string :=
  List.filter (fun n => negb (bool_decide (n ∈ map fst config_options)))
              (names (members ParentConfig)).

(** The flags among the options above; the specification gives each a
    purpose of its own (disable dragging, the parent as a drop zone, long
    touch, allow sorting). *)
Definition config_flags : list string :=
  map fst (List.filter (fun o => match snd o with KBool => true | _ => false end)
                       config_options).

(** The fields of the specification's drag session. *)
Definition session_fields : list string :=
  [ "draggedNode"; "draggedNodes"; "initialParent"; "lastParent";
    "targetIndex"; "incomingDirection"; "ascendingDirection"; "activeNode";
    "affectedNodes"; "swappedNodeValue"; "originalZIndex"; "preventEnter";
    "clonedDraggedEls" ].

(** What the specification's touch session adds to the drag session. *)
Definition touch_additions : list string :=
  [ "touchMoving"; "touchStartLeft"; "touchStartTop"; "touchedNode";
    "longTouchTimeout"; "scrollParent"; "scrollParentOverflow"; "longTouch";
    "touchedNodeDisplay" ].

(** The data of the specification's parent and node records. *)
Definition parent_data_fields : list string :=
  [ "getValues"; "setValues"; "config"; "enabledNodes"; "abortControllers" ].

Definition node_data_fields : list string :=
  [ "index"; "value"; "privateClasses"; "abortControllers" ].

End Spec.

(** ** The run-time data of the engine *)

Module Engine.

(** DOM elements are compared by identity only. *)
Definition Element : Type := nat.

(** A function supplied by the host or the application and stored in a
    record: the engine holds it and calls it, and never inspects it. *)
Definition Callback : Type := nat.

(** A [number] of the source, as far as the engine compares it. *)
Inductive number : Type :=
| Finite (q : Q)
| Infinite (negative : bool)
| NaN.

(** [0 <= x && x <= 1] on a [number]; it is [false] on [NaN]. *)
Definition in_unit_interval (x : number) : bool :=
  match x with
  | Finite q => Qle_bool 0 q && Qle_bool q 1
  | _ => false
  end.

Inductive Root : Type :=
| Document (id : nat)
| ShadowRoot (id : nat).

Inductive Direction : Type := DAbove | DBelow | DLeft | DRight.

(** The value of an [incomingDirection] member, as the source writes it. *)
Definition direction_literal (d : option Direction) : Lit.literal :=
  match d with
  | Some DAbove => Lit.LString "above"
  | Some DBelow => Lit.LString "below"
  | Some DLeft => Lit.LString "left"
  | Some DRight => Lit.LString "right"
  | None => Lit.LUndefined
  end.

Record Threshold : Type := {
  horizontal : number;
  vertical : number
}.

Section Records.

(** [V] is the type of the values of the backing collections ([any] in the
    source), [Store] the state of the application that owns them. *)
Context {V Store : Type}.

(** [NodeData] *)
Record NodeData : Type := {
  nd_index : nat;
  nd_value : V;
  nd_privateClasses : list string;
  nd_abortControllers : gmap string nat
}.

(** [NodeRecord] *)
Record NodeRecord : Type := {
  nr_el : Element;
  nr_data : NodeData
}.

(** [ParentConfig].  A member declared with [?] is an [option]. *)
Record ParentConfig : Type := {
  pc_accepts : option Callback;
  pc_disabled : option bool;
  pc_dragHandle : option string;
  pc_draggable : option (Element -> bool);
  pc_draggingClass : option string;
  pc_dropZoneClass : option string;
  pc_dropZone : option bool;
  pc_group : option string;
  pc_handleEnd : Callback;
  pc_handleDragstart : Callback;
  pc_handleTouchstart : Callback;
  pc_handleDragoverParent : Callback;
  pc_handleDragoverNode : Callback;
  pc_handleTouchmove : Callback;
  pc_handleTouchOverNode : Callback;
  pc_handleTouchOverParent : Callback;
  pc_longTouch : option bool;
  pc_longTouchClass : option string;
  pc_longTouchTimeout : option number;
  pc_name : option string;
  pc_performSort : Callback;
  pc_performTransfer : Callback;
  pc_plugins : option (list Callback);
  pc_root : Root;
  pc_setupNode : Callback;
  pc_sortable : option bool;
  pc_tearDownNode : Callback;
  pc_threshold : Threshold;
  pc_touchDraggingClass : option string;
  pc_touchDropZoneClass : option string
}.

(** [Partial<ParentConfig>]: every member may be absent. *)
Record PartialParentConfig : Type := {
  pp_accepts : option Callback;
  pp_disabled : option bool;
  pp_dragHandle : option string;
  pp_draggable : option (Element -> bool);
  pp_draggingClass : option string;
  pp_dropZoneClass : option string;
  pp_dropZone : option bool;
  pp_group : option string;
  pp_handleEnd : option Callback;
  pp_handleDragstart : option Callback;
  pp_handleTouchstart : option Callback;
  pp_handleDragoverParent : option Callback;
  pp_handleDragoverNode : option Callback;
  pp_handleTouchmove : option Callback;
  pp_handleTouchOverNode : option Callback;
  pp_handleTouchOverParent : option Callback;
  pp_longTouch : option bool;
  pp_longTouchClass : option string;
  pp_longTouchTimeout : option number;
  pp_name : option string;
  pp_performSort : option Callback;
  pp_performTransfer : option Callback;
  pp_plugins : option (list Callback);
  pp_root : option Root;
  pp_setupNode : option Callback;
  pp_sortable : option bool;
  pp_tearDownNode : option Callback;
  pp_threshold : option Threshold;
  pp_touchDraggingClass : option string;
  pp_touchDropZoneClass : option string
}.

(** [ParentData].  The accessors read and write the application's store. *)
Record ParentData : Type := {
  pd_getValues : Store -> Element -> list V;
  pd_setValues : list V -> Element -> Store -> Store;
  pd_config : ParentConfig;
  pd_enabledNodes : list NodeRecord;
  pd_abortControllers : gmap string nat
}.

(** [ParentRecord] *)
Record ParentRecord : Type := {
  pr_el : Element;
  pr_data : ParentData
}.

(** [DragAndDrop], the argument of a registration. *)
Record DragAndDrop : Type := {
  dnd_parent : Element;
  dnd_getValues : Store -> Element -> list V;
  dnd_setValues : list V -> Element -> Store -> Store;
  dnd_config : option PartialParentConfig
}.

(** [DragState] *)
Record DragState : Type := {
  ds_activeNode : option NodeRecord;
  ds_affectedNodes : list NodeRecord;
  ds_ascendingDirection : bool;
  ds_clonedDraggedEls : list Element;
  ds_draggedNode : NodeRecord;
  ds_draggedNodes : list NodeRecord;
  ds_incomingDirection : option Direction;
  ds_initialParent : ParentRecord;
  ds_lastParent : ParentRecord;
  ds_lastValue : V;
  ds_originalZIndex : option string;
  ds_preventEnter : bool;
  ds_swappedNodeValue : option V;
  ds_targetIndex : nat
}.

(** [TouchState]: a [DragState] and the members it adds. *)
Record TouchState : Type := {
  ts_drag : DragState;
  ts_touchMoving : bool;
  ts_touchStartLeft : number;
  ts_touchStartTop : number;
  ts_touchedNode : Element;
  ts_longTouchTimeout : option nat;
  ts_scrollParent : option Element;
  ts_scrollParentOverflow : option string;
  ts_longTouch : bool;
  ts_touchedNodeDisplay : option string
}.

(** [DragState | TouchState], the session a callback is handed. *)
Inductive Session : Type :=
| Drag (s : DragState)
| Touch (s : TouchState).

Definition drag_of (s : Session) : DragState :=
  match s with Drag d => d | Touch t => ts_drag t end.

(** [SetupNodeData] and [TearDownNodeData] *)
Record SetupNodeData : Type := {
  sn_node : Element;
  sn_nodeData : NodeData;
  sn_parent : Element;
  sn_parentData : ParentData
}.

Record TearDownNodeData : Type := {
  td_node : Element;
  td_nodeData : option NodeData;
  td_parent : Element;
  td_parentData : ParentData
}.

End Records.

Arguments NodeData : clear implicits.
Arguments NodeRecord : clear implicits.
Arguments ParentConfig : clear implicits.
Arguments PartialParentConfig : clear implicits.
Arguments ParentData : clear implicits.
Arguments ParentRecord : clear implicits.
Arguments DragAndDrop : clear implicits.
Arguments DragState : clear implicits.
Arguments TouchState : clear implicits.
Arguments Session : clear implicits.
Arguments SetupNodeData : clear implicits.
Arguments TearDownNodeData : clear implicits.

(** *** Lists as the resolvers reorder them *)

Section Reorder.
Context {A : Type}.

(** Modelled from the spec: the swap policy of the sort resolver, a
    two-element exchange of the entries at [i] and [j]. *)
Definition exchange (l : list A) (i j : nat) : list A :=
  match l !! i, l !! j with
  | Some a, Some b => <[j:=a]> (<[i:=b]> l)
  | _, _ => l
  end.

(** [splice(i, 0, x)] *)
Definition place (i : nat) (x : A) (l : list A) : list A :=
  take i l ++ x :: drop i l.

(** Modelled from the spec: the shift policy of the sort resolver.  The
    entry at [i] leaves and comes back at [j]; every entry between the two
    positions moves by one. *)
Definition shift (l : list A) (i j : nat) : list A :=
  match l !! i with
  | Some a => place j a (delete i l)
  | None => l
  end.

End Reorder.

(** Modelled from the spec: the target index of the sort resolver is
    clamped to [0 .. len - 1]. *)
Definition clamp (i len : nat) : nat := Nat.min i (len - 1).

Inductive SortPolicy : Type := Swap | Shift.

Definition reorder {A : Type} (policy : SortPolicy) (l : list A) (i j : nat) : list A :=
  match policy with
  | Swap => exchange l i j
  | Shift => shift l i j
  end.

(** *** The sort resolver *)

Section SortResolver.
Context {V Store : Type}.

#[local] Abbreviation NodeRecord := (NodeRecord V).
#[local] Abbreviation ParentRecord := (ParentRecord V Store).
#[local] Abbreviation DragState := (DragState V Store).

Definition index_of (n : NodeRecord) : nat := nd_index (nr_data n).
Definition value_of (n : NodeRecord) : V := nd_value (nr_data n).

Definition values (l : list NodeRecord) : list V := map value_of l.

Definition with_index (i : nat) (n : NodeRecord) : NodeRecord :=
  {| nr_el := nr_el n;
     nr_data := {| nd_index := i;
                   nd_value := nd_value (nr_data n);
                   nd_privateClasses := nd_privateClasses (nr_data n);
                   nd_abortControllers := nd_abortControllers (nr_data n) |} |}.

(** Modelled from the spec: the sort resolver re-derives [index] for the
    affected nodes, those at positions [lo .. hi]. *)
Definition reindex (lo hi : nat) (l : list NodeRecord) : list NodeRecord :=
  imap (fun i n => if (lo <=? i) && (i <=? hi) then with_index i n else n) l.

Definition with_enabledNodes (l : list NodeRecord) (p : ParentRecord) : ParentRecord :=
  {| pr_el := pr_el p;
     pr_data := {| pd_getValues := pd_getValues (pr_data p);
                   pd_setValues := pd_setValues (pr_data p);
                   pd_config := pd_config (pr_data p);
                   pd_enabledNodes := l;
                   pd_abortControllers := pd_abortControllers (pr_data p) |} |}.

(** An over-node event, after the normalizer: the node under the pointer,
    the direction the pointer comes from, and whether the pointer is past
    the threshold's dead zone. *)
Record OverNode : Type := {
  on_target : NodeRecord;
  on_direction : option Direction;
  on_pastThreshold : bool
}.

(** One parent during a session: its record, the session, and the
    application's store. *)
Record World : Type := {
  w_parent : ParentRecord;
  w_session : DragState;
  w_store : Store
}.

Definition enabledNodes (w : World) : list NodeRecord :=
  pd_enabledNodes (pr_data (w_parent w)).

(** The backing collection, as the parent's getter returns it. *)
Definition collection (w : World) : list V :=
  pd_getValues (pr_data (w_parent w)) (w_store w) (pr_el (w_parent w)).

(** Modelled from the spec: the reading of the [sortable] option by the
    sort resolver.  A parent sorts unless its configuration says
    [sortable: false]. *)
Definition sortable (p : ParentRecord) : bool :=
  default true (pc_sortable (pd_config (pr_data p))).

(** Modelled from the spec: the sort resolver, whose code is not part of
    [types.ts].  The spec's steps: the target index is the target node's
    index clamped to the list; a drop on the dragged node itself, an event
    inside the dead zone and an event while [preventEnter] is set change
    nothing; otherwise [enabledNodes] is reordered by the policy, the whole
    reordered value sequence goes through the parent's setter, and [index]
    is re-derived for the nodes between the old and the new position. *)
Definition performSort (policy : SortPolicy) (ev : OverNode) (w : World) : World :=
  let p := w_parent w in
  let s := w_session w in
  let nodes := pd_enabledNodes (pr_data p) in
  let d := index_of (ds_draggedNode s) in
  let t := clamp (index_of (on_target ev)) (length nodes) in
  if negb (sortable p) || ds_preventEnter s || negb (on_pastThreshold ev)
     || (length nodes =? 0) || (t =? d)
  then w
  else
    let lo := Nat.min d t in
    let hi := Nat.max d t in
    let nodes' := reindex lo hi (reorder policy nodes d t) in
    let p' := with_enabledNodes nodes' p in
    {| w_parent := p';
       w_session :=
         {| ds_activeNode := ds_activeNode s;
            ds_affectedNodes := take (S (hi - lo)) (drop lo nodes');
            ds_ascendingDirection := d <? t;
            ds_clonedDraggedEls := ds_clonedDraggedEls s;
            ds_draggedNode := default (ds_draggedNode s) (nodes' !! t);
            ds_draggedNodes := ds_draggedNodes s;
            ds_incomingDirection := on_direction ev;
            ds_initialParent := ds_initialParent s;
            ds_lastParent := p';
            ds_lastValue := ds_lastValue s;
            ds_originalZIndex := ds_originalZIndex s;
            ds_preventEnter := ds_preventEnter s;
            ds_swappedNodeValue :=
              match policy with
              | Swap => value_of <$> (nodes !! t)
              | Shift => ds_swappedNodeValue s
              end;
            ds_targetIndex := t |};
       w_store := pd_setValues (pr_data p) (values nodes') (pr_el p) (w_store w) |}.

(** Modelled from the spec: the session's loop over its over-events, each
    taken with the policy that resolves it. *)
Definition run (evs : list (SortPolicy * OverNode)) (w : World) : World :=
  foldl (fun w e => performSort (fst e) (snd e) w) w evs.

(** The getter returns what the setter was last given. *)
Definition lawful (p : ParentRecord) : Prop :=
  forall vs s, pd_getValues (pr_data p) (pd_setValues (pr_data p) vs (pr_el p) s) (pr_el p) = vs.

(** The backing collection and [enabledNodes] agree. *)
Definition in_sync (w : World) : Prop :=
  collection w = values (enabledNodes w).

End SortResolver.

Arguments OverNode : clear implicits.
Arguments World : clear implicits.

(** *** The transfer resolver's admission test *)

Section TransferResolver.
Context {V Store : Type}.

#[local] Abbreviation ParentRecord := (ParentRecord V Store).
#[local] Abbreviation Session := (Session V Store).

(** How the host runs an [accepts] callback: on the target, initial and
    last parent records and the session, giving a boolean, as the member's
    declared type says. *)
Context (call_accepts :
           Callback -> ParentRecord -> ParentRecord -> ParentRecord -> Session -> bool).

Definition group_of (p : ParentRecord) : option string :=
  pc_group (pd_config (pr_data p)).

(** Modelled from the spec: the "current group" of the transfer resolver,
    the group the dragged node is in at the moment, its last parent's. *)
Definition current_group (s : Session) : option string :=
  group_of (ds_lastParent (drag_of s)).

Definition same_group (target : ParentRecord) (s : Session) : bool :=
  bool_decide (group_of target = current_group s).

(** Modelled from the spec: the transfer resolver's call of the target's
    [accepts], when it has one, on the three parent records and the
    session. *)
Definition run_accepts (target : ParentRecord) (s : Session) : option bool :=
  (fun f => call_accepts f target (ds_initialParent (drag_of s))
                         (ds_lastParent (drag_of s)) s)
    <$> pc_accepts (pd_config (pr_data target)).

(** Modelled from the spec: the admission test of the transfer resolver,
    whose code is not part of [types.ts].  The spec's words: reject unless
    the target parent's group equals the current group, or an accepts
    predicate returns true. *)
Definition validateTransfer (target : ParentRecord) (s : Session) : bool :=
  same_group target s || default false (run_accepts target s).

End TransferResolver.

(** *** Registration *)

Section Registration.
Context {V Store : Type}.

#[local] Abbreviation ParentRecord := (ParentRecord V Store).
#[local] Abbreviation DragAndDrop := (DragAndDrop V Store).

Inductive ConfigError : Type :=
| MissingMember (name : string)
| ThresholdOutOfRange (axis : string).

(** Registration either fails with a configuration error or gives the
    parent's record. *)
Definition Registered (A : Type) : Type := ConfigError + A.

Definition bind {A B : Type} (m : Registered A) (k : A -> Registered B) : Registered B :=
  match m with
  | inl e => inl e
  | inr a => k a
  end.

#[local] Notation "x <-- m ;; k" := (bind m (fun x => k))
  (at level 100, m at next level, right associativity).

Definition require {A : Type} (name : string) (o : option A) : Registered A :=
  match o with
  | Some a => inr a
  | None => inl (MissingMember name)
  end.

Definition fraction (axis : string) (x : number) : Registered number :=
  if in_unit_interval x then inr x else inl (ThresholdOutOfRange axis).

(** A registration without a [config] carries no member at all. *)
Definition no_config : PartialParentConfig :=
  {| pp_accepts := None; pp_disabled := None; pp_dragHandle := None;
     pp_draggable := None; pp_draggingClass := None; pp_dropZoneClass := None;
     pp_dropZone := None; pp_group := None; pp_handleEnd := None;
     pp_handleDragstart := None; pp_handleTouchstart := None;
     pp_handleDragoverParent := None; pp_handleDragoverNode := None;
     pp_handleTouchmove := None; pp_handleTouchOverNode := None;
     pp_handleTouchOverParent := None; pp_longTouch := None;
     pp_longTouchClass := None; pp_longTouchTimeout := None; pp_name := None;
     pp_performSort := None; pp_performTransfer := None; pp_plugins := None;
     pp_root := None; pp_setupNode := None; pp_sortable := None;
     pp_tearDownNode := None; pp_threshold := None;
     pp_touchDraggingClass := None; pp_touchDropZoneClass := None |}.

(** A registration as it reaches the engine.  [DragAndDrop] requires the
    two accessors, but a call that was not type-checked can come without
    one; [parent] and the optional [config] are as declared. *)
Record Call : Type := {
  call_parent : Element;
  call_getValues : option (Store -> Element -> list V);
  call_setValues : option (list V -> Element -> Store -> Store);
  call_config : option PartialParentConfig
}.

(** A registration that was type-checked against [DragAndDrop]. *)
Definition call_of (dnd : DragAndDrop) : Call :=
  {| call_parent := dnd_parent dnd;
     call_getValues := Some (dnd_getValues dnd);
     call_setValues := Some (dnd_setValues dnd);
     call_config := dnd_config dnd |}.

Definition config_of (c : Call) : PartialParentConfig :=
  default no_config (call_config c).

(** Whether a call carries the member of [DragAndDrop] called [name]. *)
Definition supplied (c : Call) (name : string) : bool :=
  match name with
  | "parent" => true
  | "getValues" => bool_decide (is_Some (call_getValues c))
  | "setValues" => bool_decide (is_Some (call_setValues c))
  | "config" => bool_decide (is_Some (call_config c))
  | _ => false
  end.

(** An optional member of the configuration, over its default. *)
Definition override {A : Type} (given fallback : option A) : option A :=
  match given with
  | Some a => Some a
  | None => fallback
  end.

(** Modelled from the spec: the configuration a parent ends up with.  The
    spec calls the options of a registration overridable, so each member is
    the one the call's [config] carries and otherwise the default's.  The
    default configuration itself is no part of [types.ts] and is a
    parameter. *)
Definition merge (defaults : ParentConfig) (c : PartialParentConfig) : ParentConfig :=
  {| pc_accepts := override (pp_accepts c) (pc_accepts defaults);
     pc_disabled := override (pp_disabled c) (pc_disabled defaults);
     pc_dragHandle := override (pp_dragHandle c) (pc_dragHandle defaults);
     pc_draggable := override (pp_draggable c) (pc_draggable defaults);
     pc_draggingClass := override (pp_draggingClass c) (pc_draggingClass defaults);
     pc_dropZoneClass := override (pp_dropZoneClass c) (pc_dropZoneClass defaults);
     pc_dropZone := override (pp_dropZone c) (pc_dropZone defaults);
     pc_group := override (pp_group c) (pc_group defaults);
     pc_handleEnd := default (pc_handleEnd defaults) (pp_handleEnd c);
     pc_handleDragstart := default (pc_handleDragstart defaults) (pp_handleDragstart c);
     pc_handleTouchstart := default (pc_handleTouchstart defaults) (pp_handleTouchstart c);
     pc_handleDragoverParent :=
       default (pc_handleDragoverParent defaults) (pp_handleDragoverParent c);
     pc_handleDragoverNode :=
       default (pc_handleDragoverNode defaults) (pp_handleDragoverNode c);
     pc_handleTouchmove := default (pc_handleTouchmove defaults) (pp_handleTouchmove c);
     pc_handleTouchOverNode :=
       default (pc_handleTouchOverNode defaults) (pp_handleTouchOverNode c);
     pc_handleTouchOverParent :=
       default (pc_handleTouchOverParent defaults) (pp_handleTouchOverParent c);
     pc_longTouch := override (pp_longTouch c) (pc_longTouch defaults);
     pc_longTouchClass := override (pp_longTouchClass c) (pc_longTouchClass defaults);
     pc_longTouchTimeout := override (pp_longTouchTimeout c) (pc_longTouchTimeout defaults);
     pc_name := override (pp_name c) (pc_name defaults);
     pc_performSort := default (pc_performSort defaults) (pp_performSort c);
     pc_performTransfer := default (pc_performTransfer defaults) (pp_performTransfer c);
     pc_plugins := override (pp_plugins c) (pc_plugins defaults);
     pc_root := default (pc_root defaults) (pp_root c);
     pc_setupNode := default (pc_setupNode defaults) (pp_setupNode c);
     pc_sortable := override (pp_sortable c) (pc_sortable defaults);
     pc_tearDownNode := default (pc_tearDownNode defaults) (pp_tearDownNode c);
     pc_threshold := default (pc_threshold defaults) (pp_threshold c);
     pc_touchDraggingClass :=
       override (pp_touchDraggingClass c) (pc_touchDraggingClass defaults);
     pc_touchDropZoneClass :=
       override (pp_touchDropZoneClass c) (pc_touchDropZoneClass defaults) |}.

(** Modelled from the spec: registration, whose code is not part of
    [types.ts].  The spec's words: configuration errors (missing required
    hook, out-of-range threshold) must fail registration loudly.  The hooks
    a registration requires are the functions [DragAndDrop] declares
    without [?], the two accessors; the [config] may be absent, and every
    member it leaves out is the default's.  The fractions checked are those
    of the threshold the parent ends up with. *)
Definition registerParent (defaults : ParentConfig) (c : Call) : Registered ParentRecord :=
  getValues <-- require "getValues" (call_getValues c) ;;
  setValues <-- require "setValues" (call_setValues c) ;;
  let config := merge defaults (config_of c) in
  h <-- fraction "horizontal" (horizontal (pc_threshold config)) ;;
  v <-- fraction "vertical" (vertical (pc_threshold config)) ;;
  inr {| pr_el := call_parent c;
         pr_data := {| pd_getValues := getValues;
                       pd_setValues := setValues;
                       pd_config := config;
                       pd_enabledNodes := [];
                       pd_abortControllers := ∅ |} |}.

(** The configuration errors the spec names. *)
Definition missing_hook (c : Call) : Prop :=
  exists name, name ∈ Lit.required_hooks TS.DragAndDrop /\
               supplied c name = false.

Definition threshold_out_of_range (c : Call) : Prop :=
  exists t, pp_threshold (config_of c) = Some t /\
            (in_unit_interval (horizontal t) = false \/
             in_unit_interval (vertical t) = false).

(** A well-formed registration: it carries every hook [DragAndDrop]
    requires, and both fractions of the threshold in force (the config's,
    or the default's when the config has none) are within [0, 1]. *)
Definition threshold_in_force (defaults : ParentConfig) (c : Call) : Threshold :=
  default (pc_threshold defaults) (pp_threshold (config_of c)).

Definition well_formed (defaults : ParentConfig) (c : Call) : Prop :=
  (forall name, name ∈ Lit.required_hooks TS.DragAndDrop -> supplied c name = true) /\
  in_unit_interval (horizontal (threshold_in_force defaults c)) = true /\
  in_unit_interval (vertical (threshold_in_force defaults c)) = true.

End Registration.

Arguments Call : clear implicits.

End Engine.

(** ** Concrete parents, sessions and registrations

    One list of cassettes, as in the repository's usage example, held in a
    store that is the list itself. *)

Module Sample.
Import Engine.

Definition Store : Type := list string.

Definition getValues (s : Store) (_ : Element) : list string := s.
Definition setValues (vs : list string) (_ : Element) (_ : Store) : Store := vs.

Definition half : number := Finite (1 # 2).

Definition config (group : option string) (accepts : option Callback) : ParentConfig :=
  {| pc_accepts := accepts; pc_disabled := None; pc_dragHandle := None;
     pc_draggable := None; pc_draggingClass := None; pc_dropZoneClass := None;
     pc_dropZone := None; pc_group := group; pc_handleEnd := 1;
     pc_handleDragstart := 2; pc_handleTouchstart := 3;
     pc_handleDragoverParent := 4; pc_handleDragoverNode := 5;
     pc_handleTouchmove := 6; pc_handleTouchOverNode := 7;
     pc_handleTouchOverParent := 8; pc_longTouch := None;
     pc_longTouchClass := None; pc_longTouchTimeout := None; pc_name := None;
     pc_performSort := 9; pc_performTransfer := 10; pc_plugins := None;
     pc_root := Document 0; pc_setupNode := 11; pc_sortable := None;
     pc_tearDownNode := 12;
     pc_threshold := {| horizontal := half; vertical := half |};
     pc_touchDraggingClass := None; pc_touchDropZoneClass := None |}.

Definition node (i : nat) (v : string) : NodeRecord string :=
  {| nr_el := 100 + i;
     nr_data := {| nd_index := i; nd_value := v; nd_privateClasses := [];
                   nd_abortControllers := ∅ |} |}.

Definition parent (e : Element) (cfg : ParentConfig) (vs : list string)
  : ParentRecord string Store :=
  {| pr_el := e;
     pr_data := {| pd_getValues := getValues; pd_setValues := setValues;
                   pd_config := cfg; pd_enabledNodes := imap node vs;
                   pd_abortControllers := ∅ |} |}.

(** The session right after the start of a drag of the node at [d]. *)
Definition session (p : ParentRecord string Store) (d : nat) (v : string)
  : DragState string Store :=
  {| ds_activeNode := None; ds_affectedNodes := [];
     ds_ascendingDirection := false; ds_clonedDraggedEls := [];
     ds_draggedNode := node d v; ds_draggedNodes := [node d v];
     ds_incomingDirection := None; ds_initialParent := p; ds_lastParent := p;
     ds_lastValue := v; ds_originalZIndex := None; ds_preventEnter := false;
     ds_swappedNodeValue := None; ds_targetIndex := 0 |}.

(** A list with values [vs] in which the node at [d], of value [v], is
    being dragged. *)
Definition world (vs : list string) (d : nat) (v : string) : World string Store :=
  let p := parent 1 (config None None) vs in
  {| w_parent := p; w_session := session p d v; w_store := vs |}.

(** The pointer over the node at [t], past the dead zone. *)
Definition over (t : nat) (v : string) : OverNode string :=
  {| on_target := node t v; on_direction := Some DBelow; on_pastThreshold := true |}.

Definition tapes : list string :=
  ["ACDC LIVE"; "Metallica"; "Guns N' Roses"; "Def Leppard"; "Bon Jovi"; "Van Halen"].

(** Two parents of different groups; the second has an [accepts]. *)
Definition left_parent : ParentRecord string Store :=
  parent 1 (config (Some "g") None) ["A"].
Definition right_parent : ParentRecord string Store :=
  parent 2 (config (Some "h") (Some 0)) ["B"].

(** An [accepts] that takes a node from anywhere. *)
Definition always_accepts (f : Callback)
    (target initial last : ParentRecord string Store) (s : Session string Store) : bool :=
  true.

(** The defaults of the samples: the configuration of the sample parents. *)
Definition defaults : ParentConfig := config None None.

(** A configuration that sets every option of the specification's list,
    and none of the event handlers. *)
Definition listed_options (t : Threshold) : PartialParentConfig :=
  {| pp_accepts := Some 0; pp_disabled := Some false;
     pp_dragHandle := Some ".handle"; pp_draggable := Some (fun _ => true);
     pp_draggingClass := Some "dragging"; pp_dropZoneClass := Some "over";
     pp_dropZone := Some true; pp_group := Some "g"; pp_handleEnd := None;
     pp_handleDragstart := None; pp_handleTouchstart := None;
     pp_handleDragoverParent := None; pp_handleDragoverNode := None;
     pp_handleTouchmove := None; pp_handleTouchOverNode := None;
     pp_handleTouchOverParent := None; pp_longTouch := Some true;
     pp_longTouchClass := Some "held"; pp_longTouchTimeout := Some (Finite 200);
     pp_name := Some "tapes"; pp_performSort := Some 21;
     pp_performTransfer := Some 22; pp_plugins := Some [];
     pp_root := Some (ShadowRoot 1); pp_setupNode := Some 23;
     pp_sortable := Some true; pp_tearDownNode := Some 24;
     pp_threshold := Some t;
     pp_touchDraggingClass := Some "touch-dragging";
     pp_touchDropZoneClass := Some "touch-over" |}.

Definition too_wide : Threshold :=
  {| horizontal := Finite (3 # 2); vertical := half |}.

(** A type-checked registration of the cassette list. *)
Definition registration (c : option PartialParentConfig) : Call string Store :=
  call_of {| dnd_parent := 1; dnd_getValues := getValues;
             dnd_setValues := setValues; dnd_config := c |}.

(** One that reaches the engine without its setter. *)
Definition without_setter : Call string Store :=
  {| call_parent := 1; call_getValues := Some getValues;
     call_setValues := None; call_config := None |}.

End Sample.

(** ** The shape of the module

    Checks on the declarations as a whole: what they refer to, how far
    their [extends] chains go, what an interface keeps of its bases, and
    what the callbacks of the configuration are handed. *)

Module Shape.
Import TS.

Fixpoint ty_eq_dec (a b : ty) {struct a} : {a = b} + {a <> b}
with member_eq_dec (a b : member) {struct a} : {a = b} + {a <> b}.
Proof.
  - decide equality;
      match goal with
      | |- {?x = ?y} + {_} =>
          first [ exact (decide (x = y))
                | exact (@list_eq_dec _ ty_eq_dec x y)
                | exact (@list_eq_dec _ (@prod_eq_dec _ _ _ ty_eq_dec) x y)
                | exact (@list_eq_dec _ member_eq_dec x y) ]
      end.
  - decide equality;
      match goal with |- {?x = ?y} + {_} => exact (decide (x = y)) end.
Defined.

#[global] Instance ty_eq : EqDecision ty := ty_eq_dec.
#[global] Instance member_eq : EqDecision member := member_eq_dec.
#[global] Instance decl_eq : EqDecision decl.
Proof. solve_decision. Defined.

(** The names a type expression mentions: the types it refers to, the
    generic types it applies, and the values whose type it takes. *)
Fixpoint refs (t : ty) : list string :=
  match t with
  | TRef n => [n]
  | TApp n args => n :: flat_map refs args
  | TTypeof n => [n]
  | TUnion ts => flat_map refs ts
  | TFun ps r => flat_map (fun p => match p with (_, t') => refs t' end) ps ++ refs r
  | TObj ms => flat_map member_refs ms
  | _ => []
  end
with member_refs (m : member) : list string :=
  match m with Member _ _ t => refs t end.

(** The names a declaration mentions: its bases, and what the types of its
    index signature and members, or its right-hand side, mention. *)
Definition decl_refs (d : decl) : list string :=
  match d with
  | Interface _ bs ix ms =>
      bs ++ match ix with Some (k, v) => refs k ++ refs v | None => [] end
         ++ flat_map member_refs ms
  | Alias _ rhs => refs rhs
  end.

(** The types the module takes from the platform. *)
Definition platform : list string :=
  [ "HTMLElement"; "Event"; "DragEvent"; "TouchEvent"; "AbortController";
    "MutationObserver"; "Document"; "ShadowRoot"; "Element" ].

(** The generic types of the language's library that the module applies,
    and the one global whose type it takes. *)
Definition library : list string :=
  [ "Array"; "Partial"; "Record"; "WeakMap"; "ReturnType"; "setTimeout" ].

(** The bases of an interface that the module does not declare. *)
Definition platform_bases (d : decl) : list string :=
  List.filter (fun b => negb (bool_decide (is_Some (find_decl b)))) (bases d).

(** Whether the [extends] chains that start at [d] are at most [n] long. *)
Fixpoint chain (n : nat) (d : decl) : bool :=
  match n with
  | O => bool_decide (bases d = [])
  | S k => forallb (fun b => match find_decl b with
                             | Some bd => chain k bd
                             | None => true
                             end) (bases d)
  end.

(** The bases of an interface that the module declares itself. *)
Definition declared_bases (d : decl) : list decl := omap find_decl (bases d).

(** An interface may give an inherited member its type again, or narrow the
    platform's [Event] to one of its two kinds. *)
Definition same_or_narrower (inherited own : ty) : bool :=
  bool_decide (own = inherited)
  || (bool_decide (inherited = TRef "Event")
      && bool_decide (own ∈ [TRef "DragEvent"; TRef "TouchEvent"])).

(** [d] has the member [m] of a base: under its name, with its optionality,
    and with its type or a narrower one. *)
Definition keeps (d : decl) (m : member) : bool :=
  match lookup_member d (m_name m) with
  | Some m' => bool_decide (m_optional m' = m_optional m)
               && same_or_narrower (m_type m) (m_type m')
  | None => false
  end.

(** An object of interface [sub] has what member [m] asks for: the member
    with the same type, required if [m] is; an optional [m] may be absent. *)
Definition provides (sub : decl) (m : member) : bool :=
  match lookup_member sub (m_name m) with
  | Some m' => bool_decide (m_type m' = m_type m)
               && (m_optional m || negb (m_optional m'))
  | None => m_optional m
  end.

(** Every object of interface [sub] can stand where one of [sup] is
    expected. *)
Definition fits (sub sup : decl) : bool :=
  forallb (provides sub) (members sup).

(** [Partial<T>] on the members of [T]. *)
Definition partial (ms : list member) : list member :=
  map (fun m => Member (m_name m) true (m_type m)) ms.

(** The members of the object type a type expression denotes: a declared
    interface, an inline object type, or [Partial] of one of these. *)
Fixpoint expand (t : ty) : option (list member) :=
  match t with
  | TRef n => match find_decl n with
              | Some (Interface _ _ _ _ as d) => Some (members d)
              | _ => None
              end
  | TObj ms => Some ms
  | TApp "Partial" [t'] => partial <$> expand t'
  | _ => None
  end.

(** The members an object type requires: those it declares without [?]. *)
Definition required (t : ty) : list string :=
  match expand t with
  | Some ms => names (List.filter (fun m => negb (m_optional m)) ms)
  | None => []
  end.

(** [ks] without the key [n]. *)
Definition without (n : string) (ks : list string) : list string :=
  List.filter (fun k => negb (String.eqb k n)) ks.

(** An object with exactly the keys [ks] has every required member of the
    object type [t]. *)
Definition admits (t : ty) (ks : list string) : bool :=
  match expand t with
  | Some ms => forallb (fun m => m_optional m || bool_decide (m_name m ∈ ks)) ms
  | None => false
  end.

(** The function-typed members of an interface, each with its parameters
    and its return type. *)
Definition functions (d : decl) : list (string * (list (string * ty) * ty)) :=
  omap (fun m => match resolve (m_type m) with
                 | TFun ps r => Some (m_name m, (ps, r))
                 | _ => None
                 end) (members d).

Definition alternatives (t : ty) : list ty :=
  match t with TUnion ts => ts | _ => [t] end.

(** What a callback finds in an argument of type [t]: the members of the
    interface, or for a custom event those of its [detail]. *)
Definition payload (t : ty) : list member :=
  match t with
  | TRef n =>
      match find_decl n with
      | Some d => match lookup_member d "detail" with
                  | Some (Member _ _ (TObj ms)) => ms
                  | _ => members d
                  end
      | None => []
      end
  | _ => []
  end.

(** The type of the member [n] among [ms], when it is there. *)
Definition type_of (ms : list member) (n : string) : option ty :=
  m_type <$> List.find (has_name n) ms.

(** The members of the target data in a payload. *)
Definition target (ms : list member) : list member :=
  match type_of ms "targetData" with
  | Some t => payload t
  | None => []
  end.

(** The event handlers of the configuration: its [handle...] members. *)
Definition handlers (d : decl) : list (string * (list (string * ty) * ty)) :=
  List.filter (fun f => String.prefix "handle" (fst f)) (functions d).

(** The payloads a callback with parameters [ps] can be handed in its
    parameter [n]: one for each alternative of the parameter's type. *)
Definition payloads (ps : list (string * ty)) (n : string) : list (list member) :=
  flat_map (fun p => if String.eqb (fst p) n then map payload (alternatives (snd p)) else [])
           ps.

(** The parameters and the return type of the function-typed member [n]
    of an interface. *)
Definition callback (d : decl) (n : string) : option (list (string * ty) * ty) :=
  snd <$> List.find (fun f => String.eqb (fst f) n) (functions d).

Definition params (d : decl) (n : string) : list (string * ty) :=
  default [] (fst <$> callback d n).

Definition returns (d : decl) (n : string) : option ty :=
  snd <$> callback d n.

(** The names of the members in which two interfaces differ: those that
    only one of them has, or that they declare differently. *)
Definition differences (d1 d2 : decl) : list string :=
  List.filter (fun n => negb (bool_decide (lookup_member d1 n = lookup_member d2 n)))
              (names (members d1)
               ++ List.filter (fun n => negb (declares (members d1) n))
                              (names (members d2))).

End Shape.

(** ** The declarations against the specification's data model *)

Section Declarations.
Import TS.

(** C7: a Parent record is the pair of an element and its data, and the data
    holds exactly the getter, the setter, the configuration, the ordered
    sequence [enabledNodes] of Node records and the cancelable-operation
    handles; a Node record is the pair of an element and its data, and the
    data holds exactly the index, the value, the private classes and the
    cancelable-operation handles.  Every one of these members is required. *)
Theorem records_are_element_data_pairs :
  members ParentRecord = [ "el" :! TRef "HTMLElement"; "data" :! TRef "ParentData" ] /\
  names (members ParentData) = Spec.parent_data_fields /\
  lookup_member ParentData "enabledNodes"
    = Some ("enabledNodes" :! TArray (TRef "NodeRecord")) /\
  lookup_member ParentData "config" = Some ("config" :! TRef "ParentConfig") /\
  lookup_member ParentData "abortControllers"
    = Some ("abortControllers" :! TRecord TString (TRef "AbortController")) /\
  members NodeRecord = [ "el" :! TRef "Node"; "data" :! TRef "NodeData" ] /\
  names (members NodeData) = Spec.node_data_fields /\
  lookup_member NodeData "abortControllers"
    = Some ("abortControllers" :! TRecord TString (TRef "AbortController")) /\
  forallb (fun m => negb (m_optional m)) (members ParentData ++ members NodeData) = true.
Proof. repeat split; reflexivity. Qed.

(** C8: the touch session has every member of the drag session, unchanged,
    and adds exactly nine of its own: [touchMoving], [touchStartLeft],
    [touchStartTop], [touchedNode], the long-press timer handle
    [longTouchTimeout], [scrollParent] with its saved overflow
    [scrollParentOverflow], the long-press flag [longTouch] and the saved
    display style [touchedNodeDisplay]; none of the nine is a member of the
    drag session. *)
Theorem touch_state_extends_drag_state :
  members TouchState = own_members TouchState ++ members DragState /\
  members DragState ⊆ members TouchState /\
  names (own_members TouchState) = Spec.touch_additions /\
  forallb (fun n => negb (declares (members DragState) n)) Spec.touch_additions = true /\
  length (members TouchState) = length (members DragState) + 9.
Proof.
  assert (E : members TouchState = own_members TouchState ++ members DragState)
    by reflexivity.
  repeat split; try reflexivity.
  rewrite E. intros m Hm. apply elem_of_app. by right.
Qed.

(** C9: the drag session declares a required member [lastValue] of type
    [any] (and so does the touch session, which inherits it); it is the one
    member of the drag session that the specification's list of session
    fields does not have. *)
Theorem drag_state_has_lastValue :
  lookup_member DragState "lastValue" = Some ("lastValue" :! TAny) /\
  lookup_member TouchState "lastValue" = Some ("lastValue" :! TAny) /\
  ("lastValue" ∉ Spec.session_fields) /\
  List.filter (fun n => negb (bool_decide (n ∈ Spec.session_fields)))
              (names (members DragState)) = ["lastValue"].
Proof.
  split; [reflexivity|]. split; [reflexivity|]. split; [|reflexivity].
  apply (bool_decide_unpack _). vm_compute. exact I.
Qed.

(** C10: in the payload of the teardown hook the member [nodeData] is
    optional, so a payload without it is a payload of the hook; in the
    payload of the setup hook [nodeData] is required, and a payload without
    it is not one.  The two hooks take these payloads. *)
Theorem teardown_nodeData_is_optional :
  lookup_member TearDownNodeData "nodeData" = Some ("nodeData" :? TRef "NodeData") /\
  lookup_member SetupNodeData "nodeData" = Some ("nodeData" :! TRef "NodeData") /\
  Lit.provides_required TearDownNodeData ["node"; "parent"; "parentData"] = true /\
  Lit.provides_required SetupNodeData ["node"; "parent"; "parentData"] = false /\
  resolve (TRef "TearDownNode") = TFun [("data", TRef "TearDownNodeData")] TVoid /\
  resolve (TRef "SetupNode") = TFun [("data", TRef "SetupNodeData")] TVoid.
Proof. repeat split; reflexivity. Qed.

(** C3: the member [incomingDirection] of a session (drag or touch) is
    required and holds exactly one of five values: the four named
    directions and the value for "no direction yet", which the source
    writes [undefined] and the specification [none]. *)
Theorem incomingDirection_has_five_values :
  (exists m, lookup_member DragState "incomingDirection" = Some m /\
             lookup_member TouchState "incomingDirection" = Some m /\
             m_optional m = false /\
             Lit.enum_values (m_type m) = Some (map Spec.represent Spec.all_directions)) /\
  NoDup (map Spec.represent Spec.all_directions) /\
  (forall d : Spec.IncomingDirection, d ∈ Spec.all_directions) /\
  (forall d : option Engine.Direction,
     Engine.direction_literal d ∈ map Spec.represent Spec.all_directions) /\
  Engine.direction_literal None = Spec.represent Spec.none.
Proof.
  split.
  { eexists. repeat split; reflexivity. }
  split.
  { apply (bool_decide_unpack _). vm_compute. exact I. }
  split.
  { intros []; unfold Spec.all_directions; set_solver. }
  split; [|reflexivity].
  intros [[]|]; cbn; set_solver.
Qed.

(** C5, as stated, fails: [handleEnd] is a member of [ParentConfig] and is
    not among the options the specification lists, so the two do not
    enumerate the same options. *)
Lemma config_options_not_exact :
  ~ (forall n, n ∈ names (members ParentConfig) <-> n ∈ map fst Spec.config_options).
Proof.
  intros H.
  assert (Hin : "handleEnd" ∈ names (members ParentConfig)).
  { apply (bool_decide_unpack _). vm_compute. exact I. }
  apply H in Hin. revert Hin.
  apply (bool_decide_unpack _). vm_compute. exact I.
Qed.

(** C5, amended: every option the specification lists is a member of
    [ParentConfig] with the stated type; beside them [ParentConfig] declares
    the eight event handlers [handleEnd], [handleDragstart],
    [handleTouchstart], [handleDragoverParent], [handleDragoverNode],
    [handleTouchmove], [handleTouchOverNode] and [handleTouchOverParent],
    and an index signature that admits any further key. *)
Theorem config_options_are_declared :
  Forall (fun o => Spec.option_declared ParentConfig o = true) Spec.config_options /\
  Spec.unlisted_options =
    [ "handleEnd"; "handleDragstart"; "handleTouchstart"; "handleDragoverParent";
      "handleDragoverNode"; "handleTouchmove"; "handleTouchOverNode";
      "handleTouchOverParent" ] /\
  Forall (fun n => exists m, lookup_member ParentConfig n = Some m /\
                             m_optional m = false /\
                             Lit.is_function (m_type m) = true) Spec.unlisted_options /\
  index_signature ParentConfig = Some (TString, TAny) /\
  lookup_member DragAndDrop "config" = Some ("config" :? TPartial (TRef "ParentConfig")).
Proof.
  split.
  { unfold Spec.config_options. repeat constructor. }
  split; [reflexivity|].
  split; [|split; reflexivity].
  assert (E : Spec.unlisted_options =
    [ "handleEnd"; "handleDragstart"; "handleTouchstart"; "handleDragoverParent";
      "handleDragoverNode"; "handleTouchmove"; "handleTouchOverNode";
      "handleTouchOverParent" ]) by reflexivity.
  rewrite E. repeat constructor; eexists; repeat split; reflexivity.
Qed.

(** C2, as stated, fails: [ParentConfig] declares no flag beside the four
    whose purposes the specification gives (disabling, the parent as a drop
    zone, long touch, allowing sorting), so its declared members include no
    flag that selects swap or shift. *)
Lemma no_sort_policy_flag :
  ~ (exists m, m ∈ members ParentConfig /\
               Lit.is_boolean (m_type m) = true /\
               m_name m ∉ Spec.config_flags).
Proof.
  intros (m & Hin & Hb & Hn). apply Hn. clear Hn.
  assert (E : members ParentConfig = own_members ParentConfig) by reflexivity.
  rewrite E in Hin. cbn [own_members ParentConfig] in Hin.
  repeat (apply elem_of_cons in Hin as [-> | Hin];
          [first [discriminate Hb
                 | apply (bool_decide_unpack _); vm_compute; exact I]|]).
  by apply elem_of_nil in Hin.
Qed.

(** C2, amended: the flags of [ParentConfig] are exactly [disabled],
    [dropZone], [longTouch] and [sortable]; how a sort is resolved is given
    to the configuration as the required function [performSort] of the
    session and the event, beside the required [threshold] with its two
    numbers. *)
Theorem sort_policy_is_not_a_flag :
  Lit.flags ParentConfig = ["disabled"; "dropZone"; "longTouch"; "sortable"] /\
  Lit.flags ParentConfig = Spec.config_flags /\
  lookup_member ParentConfig "performSort"
    = Some ("performSort" :!
              TFun [ ("state", TUnion [TRef "DragState"; TRef "TouchState"]);
                     ("data", TUnion [TRef "NodeDragEventData"; TRef "NodeTouchEventData"]) ]
                   TVoid) /\
  lookup_member ParentConfig "threshold"
    = Some ("threshold" :! TObj [ "horizontal" :! TNumber; "vertical" :! TNumber ]).
Proof. repeat split; reflexivity. Qed.

End Declarations.

(** ** Reordering keeps the values *)

Section ReorderFacts.
Context {A : Type}.
Implicit Types l : list A.

Lemma exchange_Permutation l i j : Engine.exchange l i j ≡ₚ l.
Proof.
  unfold Engine.exchange.
  destruct (l !! i) as [a|] eqn:Hi; [|done].
  destruct (l !! j) as [b|] eqn:Hj; [|done].
  by apply Permutation_insert_swap.
Qed.

Lemma place_Permutation i (x : A) l : Engine.place i x l ≡ₚ x :: l.
Proof.
  unfold Engine.place.
  rewrite <- Permutation_middle. by rewrite take_drop.
Qed.

Lemma shift_Permutation l i j : Engine.shift l i j ≡ₚ l.
Proof.
  unfold Engine.shift.
  destruct (l !! i) as [a|] eqn:Hi; [|done].
  rewrite place_Permutation. symmetry. by apply delete_Permutation.
Qed.

Lemma reorder_Permutation policy l i j : Engine.reorder policy l i j ≡ₚ l.
Proof.
  destruct policy; [apply exchange_Permutation | apply shift_Permutation].
Qed.

Lemma exchange_length l i j : length (Engine.exchange l i j) = length l.
Proof. apply Permutation_length, exchange_Permutation. Qed.

Lemma shift_length l i j : length (Engine.shift l i j) = length l.
Proof. apply Permutation_length, shift_Permutation. Qed.

End ReorderFacts.

(** The specification's two worked reorders: a swap in a list of two, and a
    shift of the first of four to the last position. *)
Lemma swap_of_two : Engine.reorder Engine.Swap ["A"; "B"] 0 1 = ["B"; "A"].
Proof. reflexivity. Qed.

Lemma shift_first_to_last :
  Engine.reorder Engine.Shift ["A"; "B"; "C"; "D"] 0 3 = ["B"; "C"; "D"; "A"].
Proof. reflexivity. Qed.

(** ** A session of sorts within one parent *)

Section SortFacts.
Import Engine.
Context {V Store : Type}.
Implicit Types (w : World V Store) (ev : OverNode V) (policy : SortPolicy).

Lemma values_reindex lo hi (l : list (NodeRecord V)) :
  values (reindex lo hi l) = values l.
Proof.
  unfold values, reindex. rewrite <- (list_fmap_id (map value_of l)) at 1.
  change (map value_of ?x) with (value_of <$> x).
  rewrite fmap_imap, <- (imap_const value_of). rewrite list_fmap_id.
  apply imap_ext. intros i n _. cbn. by destruct (_ && _).
Qed.

Lemma values_Permutation (l k : list (NodeRecord V)) :
  l ≡ₚ k -> values l ≡ₚ values k.
Proof. intros H. unfold values. by apply Permutation_map. Qed.

(** What one over-event does to the backing collection and to
    [enabledNodes]: nothing at all, or a reorder that both undergo. *)
Lemma performSort_cases policy ev w :
  performSort policy ev w = w \/
  (pr_el (w_parent (performSort policy ev w)) = pr_el (w_parent w) /\
   pd_getValues (pr_data (w_parent (performSort policy ev w)))
     = pd_getValues (pr_data (w_parent w)) /\
   pd_setValues (pr_data (w_parent (performSort policy ev w)))
     = pd_setValues (pr_data (w_parent w)) /\
   values (enabledNodes (performSort policy ev w)) ≡ₚ values (enabledNodes w) /\
   w_store (performSort policy ev w)
     = pd_setValues (pr_data (w_parent w))
         (values (enabledNodes (performSort policy ev w)))
         (pr_el (w_parent w)) (w_store w)).
Proof.
  unfold performSort.
  destruct (_ || _); [by left|]. right.
  unfold enabledNodes.
  cbn [w_parent w_store pr_data pr_el pd_getValues pd_setValues
       pd_enabledNodes with_enabledNodes].
  repeat split; try reflexivity.
  rewrite values_reindex. apply values_Permutation, reorder_Permutation.
Qed.

Lemma performSort_lawful policy ev w :
  lawful (w_parent w) -> lawful (w_parent (performSort policy ev w)).
Proof.
  intros Hl. destruct (performSort_cases policy ev w) as [-> | (He & Hg & Hs & _)];
    [done|].
  unfold lawful. rewrite He, Hg, Hs. apply Hl.
Qed.

Lemma performSort_in_sync policy ev w :
  lawful (w_parent w) -> in_sync w ->
  in_sync (performSort policy ev w) /\
  collection (performSort policy ev w) ≡ₚ collection w.
Proof.
  intros Hl Hs.
  destruct (performSort_cases policy ev w) as [-> | (He & Hg & _ & Hp & Hst)];
    [done|].
  assert (Hc : collection (performSort policy ev w)
               = values (enabledNodes (performSort policy ev w))).
  { unfold collection. rewrite Hg, He, Hst. apply Hl. }
  split; [exact Hc|].
  rewrite Hc, Hp. unfold in_sync in Hs. by rewrite Hs.
Qed.

(** C1: for every sequence of over-events resolved within one parent during
    a session, whatever policy resolves each of them, the backing collection
    after the last event is a permutation of the collection before the
    session, and it lists the values of the parent's [enabledNodes] in
    their order; this for a parent whose getter returns what its setter was
    given and whose collection agrees with [enabledNodes] when the session
    starts. *)
Theorem sort_session_keeps_values (evs : list (SortPolicy * OverNode V)) w :
  lawful (w_parent w) ->
  in_sync w ->
  collection (run evs w) ≡ₚ collection w /\
  collection (run evs w) = values (enabledNodes (run evs w)).
Proof.
  revert w. induction evs as [|[policy ev] evs IH]; intros w Hl Hs.
  - split; [done | exact Hs].
  - cbn.
    destruct (performSort_in_sync policy ev w Hl Hs) as [Hs' Hp].
    destruct (IH _ (performSort_lawful policy ev w Hl) Hs') as [Hp' He].
    split; [|exact He].
    unfold run in Hp'. by rewrite Hp'.
Qed.

End SortFacts.

(** A session on the cassette list: the first tape is dragged over the
    last and shifted there, then over the second and swapped with it. *)
Lemma sort_session_keeps_values_witness :
  Engine.collection
    (Engine.run [ (Engine.Shift, Sample.over 5 "Van Halen");
                  (Engine.Swap, Sample.over 1 "Guns N' Roses") ]
                (Sample.world Sample.tapes 0 "ACDC LIVE"))
    ≡ₚ Engine.collection (Sample.world Sample.tapes 0 "ACDC LIVE") /\
  Engine.collection
    (Engine.run [ (Engine.Shift, Sample.over 5 "Van Halen");
                  (Engine.Swap, Sample.over 1 "Guns N' Roses") ]
                (Sample.world Sample.tapes 0 "ACDC LIVE"))
    = Engine.values
        (Engine.enabledNodes
           (Engine.run [ (Engine.Shift, Sample.over 5 "Van Halen");
                         (Engine.Swap, Sample.over 1 "Guns N' Roses") ]
                       (Sample.world Sample.tapes 0 "ACDC LIVE"))).
Proof.
  apply (sort_session_keeps_values
           [ (Engine.Shift, Sample.over 5 "Van Halen");
             (Engine.Swap, Sample.over 1 "Guns N' Roses") ]
           (Sample.world Sample.tapes 0 "ACDC LIVE")).
  - intros vs s. reflexivity.
  - reflexivity.
Defined.

(** The same session, run: the collection at its end, the indices of
    [enabledNodes], and where the session has the dragged node. *)
Lemma cassette_session_result :
  Engine.collection
    (Engine.run [ (Engine.Shift, Sample.over 5 "Van Halen");
                  (Engine.Swap, Sample.over 1 "Guns N' Roses") ]
                (Sample.world Sample.tapes 0 "ACDC LIVE"))
  = ["Metallica"; "ACDC LIVE"; "Def Leppard"; "Bon Jovi"; "Van Halen"; "Guns N' Roses"] /\
  map Engine.index_of
    (Engine.enabledNodes
       (Engine.run [ (Engine.Shift, Sample.over 5 "Van Halen");
                     (Engine.Swap, Sample.over 1 "Guns N' Roses") ]
                   (Sample.world Sample.tapes 0 "ACDC LIVE")))
  = [0; 1; 2; 3; 4; 5] /\
  Engine.ds_draggedNode
    (Engine.w_session
       (Engine.run [ (Engine.Shift, Sample.over 5 "Van Halen");
                     (Engine.Swap, Sample.over 1 "Guns N' Roses") ]
                   (Sample.world Sample.tapes 0 "ACDC LIVE")))
  = Engine.with_index 1 (Sample.node 0 "ACDC LIVE").
Proof. vm_compute. repeat split; reflexivity. Qed.

(** An over-event inside the dead zone, on the dragged node itself, or
    while [preventEnter] is set leaves everything as it is. *)
Lemma dead_zone_changes_nothing :
  Engine.performSort Engine.Shift
    {| Engine.on_target := Sample.node 5 "Van Halen";
       Engine.on_direction := Some Engine.DBelow;
       Engine.on_pastThreshold := false |}
    (Sample.world Sample.tapes 0 "ACDC LIVE")
  = Sample.world Sample.tapes 0 "ACDC LIVE" /\
  Engine.performSort Engine.Swap (Sample.over 0 "ACDC LIVE")
    (Sample.world Sample.tapes 0 "ACDC LIVE")
  = Sample.world Sample.tapes 0 "ACDC LIVE".
Proof. split; reflexivity. Qed.

(** ** Admission of a transfer *)

Section TransferFacts.
Import Engine.
Context {V Store : Type}.
Context (call_accepts :
           Callback -> ParentRecord V Store -> ParentRecord V Store ->
           ParentRecord V Store -> Session V Store -> bool).

Lemma validateTransfer_true (target : ParentRecord V Store) (s : Session V Store) :
  validateTransfer call_accepts target s = true <->
  group_of target = current_group s \/ run_accepts call_accepts target s = Some true.
Proof.
  unfold validateTransfer, same_group.
  rewrite orb_true_iff, bool_decide_eq_true.
  destruct (run_accepts call_accepts target s) as [[]|]; cbn;
    split; intros [H|H]; auto; discriminate.
Qed.

(** C4: a transfer to a target parent is rejected unless the target's group
    equals the current group or the target's [accepts] returns true.  The
    predicate is declared to take the target, initial and last parent
    records and the session and to return a boolean, it is run on exactly
    those, and when it is there and returns true the transfer is admitted
    whatever the groups are. *)
Theorem transfer_admission (target : ParentRecord V Store) (s : Session V Store) :
  TS.lookup_member TS.ParentConfig "accepts"
    = Some (TS.Member "accepts" true
              (TS.TFun [ ("targetParentData", TS.TRef "ParentRecord");
                         ("initialParentData", TS.TRef "ParentRecord");
                         ("lastParentData", TS.TRef "ParentRecord");
                         ("state", TS.TUnion [TS.TRef "DragState"; TS.TRef "TouchState"]) ]
                       TS.TBoolean)) /\
  (validateTransfer call_accepts target s = false <->
     group_of target ≠ current_group s /\
     run_accepts call_accepts target s ≠ Some true) /\
  (forall f, pc_accepts (pd_config (pr_data target)) = Some f ->
             call_accepts f target (ds_initialParent (drag_of s))
                          (ds_lastParent (drag_of s)) s = true ->
             validateTransfer call_accepts target s = true).
Proof.
  split; [reflexivity|]. split.
  - rewrite <- not_true_iff_false, validateTransfer_true. tauto.
  - intros f Hf Hc. apply validateTransfer_true. right.
    unfold run_accepts. rewrite Hf. cbn. by rewrite Hc.
Qed.

End TransferFacts.

(** A node of group "g" over a parent of group "h" whose [accepts] says
    yes: the groups differ and the transfer is admitted. *)
Lemma transfer_admission_witness :
  Engine.group_of Sample.right_parent
    ≠ Engine.current_group (Engine.Drag (Sample.session Sample.left_parent 0 "A")) /\
  Engine.validateTransfer Sample.always_accepts Sample.right_parent
    (Engine.Drag (Sample.session Sample.left_parent 0 "A")) = true.
Proof.
  split.
  - discriminate.
  - apply (proj2 (proj2 (transfer_admission Sample.always_accepts
                           Sample.right_parent
                           (Engine.Drag (Sample.session Sample.left_parent 0 "A")))) 0);
      reflexivity.
Defined.

(** Without an [accepts], the same pair of groups is rejected. *)
Lemma group_mismatch_rejected :
  Engine.validateTransfer Sample.always_accepts
    (Sample.parent 2 (Sample.config (Some "h") None) ["B"])
    (Engine.Drag (Sample.session Sample.left_parent 0 "A")) = false.
Proof. reflexivity. Qed.

(** ** Registration and configuration errors *)

Section RegistrationFacts.
Import Engine.
Context {V Store : Type}.
Implicit Types (c : Call V Store) (defaults : ParentConfig).

(** The hooks that [DragAndDrop] requires. *)
Lemma required_by_DragAndDrop :
  Lit.required_hooks TS.DragAndDrop = ["getValues"; "setValues"].
Proof. reflexivity. Qed.

Lemma fraction_inr axis x y :
  fraction axis x = inr y <-> in_unit_interval x = true /\ y = x.
Proof.
  unfold fraction. destruct (in_unit_interval x); split; intros H;
    try discriminate; try (by destruct H).
  - by injection H as <-.
  - destruct H as [_ ->]. reflexivity.
Qed.

Lemma supplied_hooks c :
  (forall name, name ∈ Lit.required_hooks TS.DragAndDrop -> supplied c name = true) <->
  is_Some (call_getValues c) /\ is_Some (call_setValues c).
Proof.
  rewrite required_by_DragAndDrop. split.
  - intros H. split; apply (bool_decide_eq_true_1 _).
    + apply (H "getValues"). apply elem_of_cons. by left.
    + apply (H "setValues"). apply elem_of_cons. right. apply elem_of_cons. by left.
  - intros [Hg Hs] name Hn.
    apply elem_of_cons in Hn as [-> | Hn]; [by apply bool_decide_eq_true_2|].
    apply elem_of_cons in Hn as [-> | Hn]; [by apply bool_decide_eq_true_2|].
    by apply elem_of_nil in Hn.
Qed.

(** What a registration that succeeds has checked, and what it gives. *)
Lemma registerParent_inr defaults c p :
  registerParent defaults c = inr p ->
  well_formed defaults c /\
  pr_el p = call_parent c /\
  call_getValues c = Some (pd_getValues (pr_data p)) /\
  call_setValues c = Some (pd_setValues (pr_data p)) /\
  pd_config (pr_data p) = merge defaults (config_of c) /\
  pd_enabledNodes (pr_data p) = [].
Proof.
  unfold registerParent, well_formed, threshold_in_force.
  destruct (call_getValues c) as [g|] eqn:Eg; [|discriminate].
  destruct (call_setValues c) as [st|] eqn:Es; [|discriminate].
  cbn [require bind]. cbv zeta. cbn [merge pc_threshold].
  destruct (fraction "horizontal" _) as [|h] eqn:Eh; [discriminate|].
  destruct (fraction "vertical" _) as [|v] eqn:Ev; [discriminate|].
  cbn [bind]. intros [= <-]. cbn.
  apply fraction_inr in Eh as [Hh _]. apply fraction_inr in Ev as [Hv _].
  split; [|done].
  split; [|done].
  apply supplied_hooks. rewrite Eg, Es. split; by eexists.
Qed.

Lemma well_formed_registers defaults c :
  well_formed defaults c -> exists p, registerParent defaults c = inr p.
Proof.
  unfold registerParent, well_formed, threshold_in_force.
  intros (Hreq & Hh & Hv).
  apply supplied_hooks in Hreq as [[g ->] [st ->]].
  cbn [require bind]. cbv zeta. cbn [merge pc_threshold].
  unfold fraction. rewrite Hh, Hv. cbn [bind]. eexists. reflexivity.
Qed.


End RegistrationFacts.


(** The sample registrations, run.  Without a configuration, and with one
    that sets every listed option and no event handler, the registration
    gives a parent; the parent has the default threshold in the first case
    and the configuration's group in the second.  A fraction of 3/2 and a
    missing setter fail. *)
Lemma registration_samples :
  (exists p, Engine.registerParent Sample.defaults (Sample.registration None) = inr p /\
             Engine.pc_threshold (Engine.pd_config (Engine.pr_data p))
               = Engine.pc_threshold Sample.defaults) /\
  (exists p, Engine.registerParent Sample.defaults
               (Sample.registration
                  (Some (Sample.listed_options
                           {| Engine.horizontal := Engine.Finite 0;
                              Engine.vertical := Engine.Finite 1 |}))) = inr p /\
             Engine.pc_group (Engine.pd_config (Engine.pr_data p)) = Some "g" /\
             Engine.pc_handleEnd (Engine.pd_config (Engine.pr_data p))
               = Engine.pc_handleEnd Sample.defaults) /\
  Engine.registerParent Sample.defaults
    (Sample.registration (Some (Sample.listed_options Sample.too_wide)))
    = inl (Engine.ThresholdOutOfRange "horizontal") /\
  Engine.registerParent Sample.defaults
    (Sample.registration
       (Some (Sample.listed_options
                {| Engine.horizontal := Sample.half; Engine.vertical := Engine.NaN |})))
    = inl (Engine.ThresholdOutOfRange "vertical") /\
  Engine.registerParent Sample.defaults Sample.without_setter
    = inl (Engine.MissingMember "setValues").
Proof.
  split; [eexists; split; reflexivity|].
  split; [eexists; repeat split; reflexivity|].
  repeat split; reflexivity.
Qed.

(** ** The module as a whole *)

Section ShapeFacts.
Import TS Shape.

(** Deciding a closed statement by running its decision procedure. *)
Ltac by_computation := apply (bool_decide_unpack _); vm_compute; exact I.

(** X1: every name that a declaration of the module mentions (as a base,
    in its index signature, in a member's type, or in an alias's right-hand
    side; a type referred to, a generic type applied, or the operand of a
    [typeof]) is declared by the module, or is one of nine types of the
    platform, or is one of the five generic types [Array], [Partial],
    [Record], [WeakMap], [ReturnType] of the language's library or the
    global [setTimeout]; and each of these fifteen is mentioned and is not
    declared by the module. *)
Theorem module_is_closed :
  Forall (fun d => Forall (fun n => is_Some (find_decl n) \/ n ∈ platform \/ n ∈ library)
                          (decl_refs d))
         types_ts /\
  Forall (fun n => n ∈ flat_map decl_refs types_ts /\ find_decl n = None)
         (platform ++ library) /\
  length (platform ++ library) = 15.
Proof. split; [|split]; [by_computation | by_computation | reflexivity]. Qed.

(** X2: no two declarations of the module share a name, so each one is
    what its name is looked up to. *)
Theorem declarations_found_by_name :
  NoDup (map d_name types_ts) /\
  Forall (fun d => find_decl (d_name d) = Some d) types_ts.
Proof. split; by_computation. Qed.

(** X3: no interface has two members of one name, its inherited members
    included, so each member is what its name is looked up to. *)
Theorem members_found_by_name :
  Forall (fun d => NoDup (names (members d)) /\
                   Forall (fun m => lookup_member d (m_name m) = Some m) (members d))
         types_ts.
Proof. by_computation. Qed.

Lemma chain_stable n : forall d k,
  chain n d = true -> members_upto (n + k) d = members_upto n d.
Proof.
  induction n as [|n IH]; intros d k H.
  - cbn in H. apply bool_decide_eq_true in H.
    destruct k as [|k]; [reflexivity|].
    cbn. rewrite H. cbn. apply app_nil_r.
  - cbn [chain] in H. cbn [Nat.add members_upto].
    f_equal. f_equal.
    induction (bases d) as [|b bs IHb]; [reflexivity|].
    cbn [forallb] in H. apply andb_true_iff in H as [Hb Hbs].
    cbn [flat_map]. rewrite (IHb Hbs). f_equal.
    destruct (find_decl b) as [bd|]; [|reflexivity].
    by apply IH.
Qed.

(** Two steps along the [extends] clauses reach every base that the module
    declares, so the bound of [members] loses nothing. *)
Lemma members_need_two_steps :
  (forall k, Forall (fun d => members_upto (2 + k) d = members_upto 2 d) types_ts) /\
  Forall (fun d => members d = members_upto 2 d) types_ts.
Proof.
  assert (Hc : Forall (fun d => chain 2 d = true) types_ts) by by_computation.
  split.
  - intros k. eapply Forall_impl; [exact Hc|].
    intros d H. by apply chain_stable.
  - eapply Forall_impl; [exact Hc|].
    intros d H. apply (chain_stable 2 d (length types_ts - 2) H).
Qed.

(** X4: eight interfaces of the module extend another.  [Node] extends the
    platform's [HTMLElement] and the two touch-over events the platform's
    [Event]: these three have members that the module does not write, and
    they are the only ones.  The other five extend interfaces of the
    module, in chains at most two long, the one from [TouchState] being the
    only one longer than one.  Of the members the module writes, an
    interface gets one from a base without writing it again only in
    [NodeDragEventData] and [ParentDragEventData] (both [targetData]) and in
    [TouchState] (every member of [DragState]); [NodeTouchEventData] and
    [DragState] write again all that their bases have. *)
Theorem extends_clauses_of_the_module :
  map (fun d => (d_name d, bases d))
      (List.filter (fun d => negb (bool_decide (bases d = []))) types_ts)
    = [ ("NodeDragEventData", ["NodeEventData"]);
        ("ParentDragEventData", ["ParentEventData"]);
        ("NodeTouchEventData", ["NodeEventData"]);
        ("Node", ["HTMLElement"]);
        ("TouchOverNodeEvent", ["Event"]);
        ("TouchOverParentEvent", ["Event"]);
        ("TouchState", ["DragState"]);
        ("DragState", ["DragStateProps"]) ] /\
  map (fun d => (d_name d, platform_bases d))
      (List.filter (fun d => negb (bool_decide (platform_bases d = []))) types_ts)
    = [ ("Node", ["HTMLElement"]); ("TouchOverNodeEvent", ["Event"]);
        ("TouchOverParentEvent", ["Event"]) ] /\
  Forall (fun d => chain 2 d = true) types_ts /\
  map d_name (List.filter (fun d => negb (chain 1 d)) types_ts) = ["TouchState"] /\
  map (fun d => (d_name d,
                 List.filter (fun n => negb (declares (own_members d) n))
                             (names (members d))))
      (List.filter (fun d => negb (bool_decide (own_members d = members d))) types_ts)
    = [ ("NodeDragEventData", ["targetData"]);
        ("ParentDragEventData", ["targetData"]);
        ("TouchState", names (members DragState)) ].
Proof.
  split; [vm_compute; reflexivity|].
  split; [vm_compute; reflexivity|].
  split; [by_computation|].
  split; vm_compute; reflexivity.
Qed.

(** X5: an interface has every member of each base that the module
    declares, under the same name and with the same optionality; the type
    is the base's, except that the three event-data interfaces
    [NodeDragEventData], [ParentDragEventData] and [NodeTouchEventData]
    narrow the base's [e: Event] to a drag or touch event. *)
Theorem interfaces_keep_their_bases :
  Forall (fun d => Forall (fun bd => Forall (fun m => keeps d m = true) (members bd))
                          (declared_bases d))
         types_ts /\
  flat_map (fun d =>
              flat_map (fun bd =>
                          omap (fun m => if bool_decide (lookup_member d (m_name m) = Some m)
                                         then None else Some (d_name d, m_name m))
                               (members bd))
                       (declared_bases d))
           types_ts
    = [ ("NodeDragEventData", "e"); ("ParentDragEventData", "e");
        ("NodeTouchEventData", "e") ].
Proof. split; [by_computation | vm_compute; reflexivity]. Qed.

(** X6: a node record is an entry of the weak map of nodes, and a parent
    record an entry of the weak map of parents: [el] has the map's key type
    and [data] its value type. *)
Theorem records_are_weak_map_entries :
  Forall (fun rm => exists k v,
            resolve (TRef (snd rm)) = TWeakMap k v /\
            option_map members (find_decl (fst rm)) = Some [ "el" :! k; "data" :! v ])
         [ ("NodeRecord", "NodesData"); ("ParentRecord", "ParentsData") ].
Proof. repeat constructor; do 2 eexists; split; reflexivity. Qed.

(** X7: the configuration has eight event handlers.  Each takes one
    argument and returns nothing; whichever alternative of the argument it
    is handed, the argument carries the platform's event as [e] and target
    data with the parent's record; the target data has the node's record as
    well, except for the two handlers of an event over the parent. *)
Theorem handlers_reach_the_parent :
  map fst (handlers ParentConfig)
    = [ "handleEnd"; "handleDragstart"; "handleTouchstart"; "handleDragoverParent";
        "handleDragoverNode"; "handleTouchmove"; "handleTouchOverNode";
        "handleTouchOverParent" ] /\
  Forall (fun h =>
            length (fst (snd h)) = 1 /\
            snd (snd h) = TVoid /\
            flat_map (fun q => payloads (fst (snd h)) (fst q)) (fst (snd h)) ≠ [] /\
            Forall (fun p =>
                      type_of p "e" ∈ [ Some (TRef "Event"); Some (TRef "DragEvent");
                                        Some (TRef "TouchEvent") ] /\
                      type_of (target p) "parent" = Some (TRef "ParentRecord") /\
                      type_of (target p) "node"
                        = if bool_decide (fst h ∈ ["handleDragoverParent"; "handleTouchOverParent"])
                          then None else Some (TRef "NodeRecord"))
                   (flat_map (fun q => payloads (fst (snd h)) (fst q)) (fst (snd h))))
         (handlers ParentConfig).
Proof. split; [vm_compute; reflexivity | by_computation]. Qed.

(** X8: the two strategies of the configuration, [performSort] and
    [performTransfer], take the session (drag or touch) and the event's
    data, and return nothing.  Whichever alternative the data is, its target
    data has the parent's record; for [performSort] it always has the
    node's record too, for [performTransfer] only when the event is a
    node's. *)
Theorem strategies_take_session_and_target :
  Forall (fun n =>
            map fst (params ParentConfig n) = ["state"; "data"] /\
            returns ParentConfig n = Some TVoid /\
            payloads (params ParentConfig n) "state"
              = [members DragState; members TouchState] /\
            length (payloads (params ParentConfig n) "data") = 2 /\
            Forall (fun p => type_of (target p) "parent" = Some (TRef "ParentRecord"))
                   (payloads (params ParentConfig n) "data"))
         ["performSort"; "performTransfer"] /\
  map (fun p => type_of (target p) "node")
      (payloads (params ParentConfig "performSort") "data")
    = [Some (TRef "NodeRecord"); Some (TRef "NodeRecord")] /\
  map (fun p => type_of (target p) "node")
      (payloads (params ParentConfig "performTransfer") "data")
    = [Some (TRef "NodeRecord"); None].
Proof. split; [by_computation | split; vm_compute; reflexivity]. Qed.

(** X9: of all the function-typed members of the module's interfaces, only
    the predicates [accepts] and [draggable], which return a boolean, and
    the getter [getValues], which returns the values, return anything;
    every other one returns [void]. *)
Theorem callbacks_return_nothing :
  Forall (fun d =>
            Forall (fun f =>
                      snd (snd f) = TVoid \/
                      (fst f ∈ ["accepts"; "draggable"] /\ snd (snd f) = TBoolean) \/
                      (fst f = "getValues" /\ snd (snd f) = TArray TAny))
                   (functions d))
         types_ts /\
  length (flat_map functions types_ts) = 22.
Proof. split; [by_computation | vm_compute; reflexivity]. Qed.

(** X10: the payloads of the setup and teardown hooks differ in [nodeData]
    only, which teardown makes optional: every setup payload can stand
    where a teardown payload is expected, and not the other way round. *)
Theorem setup_payload_is_teardown_payload :
  differences SetupNodeData TearDownNodeData = ["nodeData"] /\
  fits SetupNodeData TearDownNodeData = true /\
  fits TearDownNodeData SetupNodeData = false.
Proof. repeat split; vm_compute; reflexivity. Qed.

(** X11: a plugin's hook set has the node hooks of the configuration, with
    the same types, but every one of its four hooks is optional: the empty
    object is a hook set, while a configuration needs both node hooks.  Its
    parent-scope hooks [setup] and [tearDown] take no argument. *)
Theorem plugin_hooks_match_config_hooks :
  Forall (fun n => is_Some (type_of (members DNDPluginData) n) /\
                   type_of (members DNDPluginData) n = type_of (members ParentConfig) n)
         ["setupNode"; "tearDownNode"] /\
  names (members DNDPluginData) = ["setup"; "tearDown"; "setupNode"; "tearDownNode"] /\
  admits (TRef "DNDPluginData") [] = true /\
  admits (TRef "ParentConfig")
         (List.filter (fun n => negb (bool_decide (n ∈ ["setupNode"; "tearDownNode"])))
                      (names (members ParentConfig))) = false /\
  params DNDPluginData "setup" = [] /\
  params DNDPluginData "tearDown" = [] /\
  map fst (functions DNDPluginData) = names (members DNDPluginData).
Proof. split; [by_computation | repeat split; vm_compute; reflexivity]. Qed.

(** X12: a touch session can stand where a drag session, the properties a
    drag session starts from, or those a touch session starts from are
    expected; a drag session can stand for its own starting properties but
    not for a touch session or its starting properties.  Every interface of
    the module can stand for itself. *)
Theorem sessions_fit_their_props :
  Forall (fun sup => fits TouchState sup = true)
         [DragState; DragStateProps; TouchStateProps] /\
  fits DragState DragStateProps = true /\
  Forall (fun sup => fits DragState sup = false) [TouchState; TouchStateProps] /\
  Forall (fun d => fits d d = true) types_ts.
Proof. repeat split; by_computation. Qed.

(** X13: the target data of a node's event has everything the target data
    of a parent's event has, so it can stand for it, and not the other way
    round; what a lookup of the element under a point gives has the members
    of the target data of the same kind. *)
Theorem node_targets_are_parent_targets :
  fits NodeTargetData ParentTargetData = true /\
  fits ParentTargetData NodeTargetData = false /\
  members NodeFromPoint = members NodeTargetData /\
  members ParentFromPoint = members ParentTargetData /\
  differences NodeTargetData ParentTargetData = ["node"].
Proof. repeat split; vm_compute; reflexivity. Qed.

(** X14: the accessors a registration hands over have the types of the
    accessors the parent's data holds; the setter takes as its first
    argument what the getter returns, an array of values as in
    [DragAndDropData], and both take the parent's element, of the type of
    the registration's [parent] and of a parent record's [el]. *)
Theorem accessors_agree :
  Forall (fun n => is_Some (callback DragAndDrop n) /\
                   callback DragAndDrop n = callback ParentData n)
         ["getValues"; "setValues"] /\
  (snd <$> head (params ParentData "setValues")) = returns ParentData "getValues" /\
  returns ParentData "getValues" = type_of (members DragAndDropData) "values" /\
  Forall (fun n => (snd <$> last (params ParentData n)) = type_of (members ParentRecord) "el" /\
                   (snd <$> last (params ParentData n)) = type_of (members DragAndDrop) "parent")
         ["getValues"; "setValues"].
Proof. repeat split; by_computation. Qed.

(** [Partial] of an object type keeps the names and the types of its
    members and requires none of them. *)
Lemma partial_admits_empty (t : ty) (ms : list member) :
  expand t = Some ms ->
  (names <$> expand (TPartial t)) = Some (names ms) /\
  (map m_type <$> expand (TPartial t)) = Some (map m_type ms) /\
  admits (TPartial t) [] = true.
Proof.
  intros H. unfold admits, TPartial. cbn [expand]. rewrite H. cbn.
  unfold partial, names. rewrite !map_map. cbn.
  repeat split.
  rewrite forallb_forall. intros m Hm. apply in_map_iff in Hm as (m0 & <- & _).
  reflexivity.
Qed.

(** X15: a registration needs its [parent] and its two accessors, and
    nothing else: without any one of the three it is not a [DragAndDrop],
    with the three alone it is.  Its [config] has the members of
    [ParentConfig] under their names and with their types and needs none of
    them, whereas a [ParentConfig] needs the fourteen members it declares
    without [?], each of them. *)
Theorem registration_needs_no_config :
  required (TRef "DragAndDrop") = ["parent"; "getValues"; "setValues"] /\
  admits (TRef "DragAndDrop") (required (TRef "DragAndDrop")) = true /\
  Forall (fun n => admits (TRef "DragAndDrop")
                          (without n (required (TRef "DragAndDrop"))) = false)
         (required (TRef "DragAndDrop")) /\
  (exists t, type_of (members DragAndDrop) "config" = Some t /\
             (names <$> expand t) = Some (names (members ParentConfig)) /\
             (map m_type <$> expand t) = Some (map m_type (members ParentConfig)) /\
             required t = [] /\
             admits t [] = true) /\
  required (TRef "ParentConfig")
    = [ "handleEnd"; "handleDragstart"; "handleTouchstart"; "handleDragoverParent";
        "handleDragoverNode"; "handleTouchmove"; "handleTouchOverNode";
        "handleTouchOverParent"; "performSort"; "performTransfer"; "root";
        "setupNode"; "tearDownNode"; "threshold" ] /\
  admits (TRef "ParentConfig") (required (TRef "ParentConfig")) = true /\
  Forall (fun n => admits (TRef "ParentConfig")
                          (without n (required (TRef "ParentConfig"))) = false)
         (required (TRef "ParentConfig")).
Proof.
  split; [reflexivity|]. split; [reflexivity|]. split; [by_computation|].
  split.
  { exists (TPartial (TRef "ParentConfig")). split; [reflexivity|].
    destruct (partial_admits_empty (TRef "ParentConfig") (members ParentConfig) eq_refl)
      as (Hn & Ht & Ha).
    split; [exact Hn|]. split; [exact Ht|]. split; [reflexivity | exact Ha]. }
  split; [reflexivity|]. split; [reflexivity|]. by_computation.
Qed.

End ShapeFacts.

